(** * Accessibility lint rules over JSX and Vue template trees

    A shallow embedding of the event-handler classifier
    ([utils/event-utils.ts]) and of the rule visitors [form-label],
    [anchor-is-valid], [no-noninteractive-element-to-interactive-role],
    [scope] and [prefer-tag-over-role], together with the properties the
    specification states about them.

    Conventions.  A visitor that calls [context.report] is a function to
    the list of reports it emits, in order.  Values the source reads from
    untyped ([any]) nodes are [JsValue]s, with JavaScript's truthiness and
    strict equality written out.  Strings are sequences of bytes, a
    character outside ASCII being its UTF-8 bytes.  [toLowerCase] folds
    the letters A-Z and leaves every other byte unchanged: it is
    [String.prototype.toLowerCase] on the strings that are ASCII
    ([isASCII]).  A property that states what a lower-cased name or value
    is holds that name or value to be ASCII, by a hypothesis or because
    the lower-cased form is a word of an ASCII table. *)

From Stdlib Require Import String Ascii List Bool ZArith.
From stdpp Require Import gmap strings list.
Import ListNotations.
Open Scope string_scope.

(** ** JavaScript values and strings *)

Module Js.

(** The values a property read can produce on the syntax trees below.
    [JsObject] stands for any object (a nested node, a function). *)
Inductive JsValue : Type :=
| JsUndefined
| JsNull
| JsBool (b : bool)
| JsNumber (z : Z)
| JsString (s : string)
| JsObject.

(** ToBoolean. *)
Definition truthy (v : JsValue) : bool :=
  match v with
  | JsUndefined | JsNull => false
  | JsBool b => b
  | JsNumber z => negb (z =? 0)%Z
  | JsString s => negb (String.eqb s "")
  | JsObject => true
  end.

(** [v === s] for a string [s]. *)
Definition strict_eq_string (v : JsValue) (s : string) : bool :=
  match v with
  | JsString s' => String.eqb s' s
  | _ => false
  end.

(** [new Set(names)] for an array of strings. *)
Definition new_Set (names : list string) : gset string := list_to_set names.

(** [[...set]]: the members of a set, as spread into an array. *)
Definition spread (s : gset string) : list string := elements s.

(** [set.has(v)] on a set of strings: only a string can be a member. *)
Definition has (s : gset string) (v : JsValue) : bool :=
  match v with
  | JsString x => bool_decide (x ∈ s)
  | _ => false
  end.

(** [array?.some(p) ?? false] *)
Definition some {A : Type} (p : A → bool) (array : option (list A)) : bool :=
  match array with
  | Some l => existsb p l
  | None => false
  end.

(** [array?.find(p)] *)
Definition find {A : Type} (p : A → bool) (array : option (list A)) : option A :=
  match array with
  | Some l => List.find p l
  | None => None
  end.

Definition ascii_toLowerCase (c : ascii) : ascii :=
  let n := N_of_ascii c in
  if (65 <=? n)%N && (n <=? 90)%N then ascii_of_N (n + 32) else c.

Fixpoint toLowerCase (s : string) : string :=
  match s with
  | EmptyString => EmptyString
  | String c rest => String (ascii_toLowerCase c) (toLowerCase rest)
  end.

(** Every character of [s] is an ASCII character.  On such a string
    [toLowerCase] above is [String.prototype.toLowerCase]; a character
    outside ASCII may have a lower-case form of its own, which the fold
    of A-Z does not give. *)
Definition isASCII (s : string) : bool :=
  forallb (λ c, (N_of_ascii c <? 128)%N) (list_ascii_of_string s).

(** The first result of [f] over the array, as a scan that stops at the
    first attribute for which [f] answers. *)
Fixpoint find_map {A B : Type} (f : A → option B) (l : list A) : option B :=
  match l with
  | [] => None
  | x :: rest =>
      match f x with
      | Some y => Some y
      | None => find_map f rest
      end
  end.

(** [s.startsWith(p)] *)
Definition startsWith (s p : string) : bool := String.prefix p s.

End Js.

Import Js.

(** ** Syntax trees *)

(** An expression inside braces; only literals are ever inspected. *)
Inductive Expression : Type :=
| Literal (value : JsValue)
| Identifier (name : string)
| OtherExpression.

(** The node in an attribute's [value] field, for both dialects: its
    [type] tag is the constructor. *)
Inductive AttrValue : Type :=
| ValLiteral (value : JsValue)                   (* JSX: type 'Literal' *)
| ValJSXExpressionContainer (expression : Expression)
| ValJSXElement
| ValVLiteral (value : string)                   (* Vue: type 'VLiteral' *)
| ValVExpressionContainer (expression : Expression).

(** [valueNode.value] *)
Definition value_value (v : AttrValue) : JsValue :=
  match v with
  | ValLiteral x => x
  | ValVLiteral s => JsString s
  | ValJSXExpressionContainer _ | ValJSXElement | ValVExpressionContainer _ =>
      JsUndefined
  end.

(** What the rules read from an attribute of either dialect. *)
Class AttrLike (A : Type) := attr_value : A → option AttrValue.

(** [attr?.value?.value] *)
Definition attr_value_value {A} `{AttrLike A} (attr : option A) : JsValue :=
  match attr ≫= attr_value with
  | Some v => value_value v
  | None => JsUndefined
  end.

Module Jsx.

Inductive JSXAttributeName : Type :=
| AttrIdentifier (name : string)               (* disabled, aria-label *)
| AttrNamespacedName (namespace name : string) (* xlink:href *).

(** The value of an attribute: [name="text"], [name={expression}] or
    [name=<element />]; an attribute without a value has none. *)
Inductive JSXAttributeValue : Type :=
| JSXLiteral (value : JsValue)
| JSXExpressionContainer (expression : Expression)
| JSXElementValue.

Definition value_node (v : JSXAttributeValue) : AttrValue :=
  match v with
  | JSXLiteral x => ValLiteral x
  | JSXExpressionContainer e => ValJSXExpressionContainer e
  | JSXElementValue => ValJSXElement
  end.

Inductive JSXAttr : Type :=
| JSXAttribute (name : JSXAttributeName) (value : option JSXAttributeValue)
| JSXSpreadAttribute (argument : Expression).

Inductive JSXTagName : Type :=
| JSXIdentifier (name : string)                  (* <div>, <Button> *)
| JSXMemberExpression (object property : string) (* <Table.Cell> *)
| JSXNamespacedName (namespace name : string)    (* <svg:rect> *).

Record JSXOpeningElement : Type := {
  name : JSXTagName;
  attributes : option (list JSXAttr)
}.

(** [attr.type === 'JSXSpreadAttribute'] *)
Definition is_spread (attr : JSXAttr) : bool :=
  match attr with
  | JSXSpreadAttribute _ => true
  | JSXAttribute _ _ => false
  end.

(** [attr.name?.name]: a string for a plain name, the inner identifier
    node for a namespaced one, undefined for a spread. *)
Definition attr_name_name (attr : JSXAttr) : JsValue :=
  match attr with
  | JSXAttribute (AttrIdentifier n) _ => JsString n
  | JSXAttribute (AttrNamespacedName _ _) _ => JsObject
  | JSXSpreadAttribute _ => JsUndefined
  end.

#[export] Instance JSXAttr_AttrLike : AttrLike JSXAttr :=
  λ attr, match attr with
          | JSXAttribute _ v => value_node <$> v
          | JSXSpreadAttribute _ => None
          end.

(** [<tag a1 a2 ... />] with plain-named attributes. *)
Definition attribute (n : string) (v : option JSXAttributeValue) : JSXAttr :=
  JSXAttribute (AttrIdentifier n) v.

Definition element (tag : string) (attrs : list JSXAttr) : JSXOpeningElement :=
  {| name := JSXIdentifier tag; attributes := Some attrs |}.

End Jsx.

Module Vue.

Inductive VDirectiveArgument : Type :=
| ArgIdentifier (name : string)                (* @click, :id *)
| ArgExpression                                (* @[event] *).

(** [directive] is false for [VAttribute] and true for [VDirective]. *)
Inductive VAttr : Type :=
| VAttribute (key_name : string) (value : option string)
| VDirective (key_name_name : string) (argument : option VDirectiveArgument)
             (value : option Expression).

Record VElement : Type := {
  name : string;
  startTag_attributes : option (list VAttr)   (* node.startTag?.attributes *)
}.

(** [attr.directive] *)
Definition directive (attr : VAttr) : bool :=
  match attr with
  | VAttribute _ _ => false
  | VDirective _ _ _ => true
  end.

(** [attr.key?.name]: a string on a plain attribute, the identifier node
    of the directive's name on a directive. *)
Definition key_name (attr : VAttr) : JsValue :=
  match attr with
  | VAttribute k _ => JsString k
  | VDirective _ _ _ => JsObject
  end.

(** [attr.key?.name?.name] *)
Definition key_name_name (attr : VAttr) : JsValue :=
  match attr with
  | VAttribute _ _ => JsUndefined
  | VDirective n _ _ => JsString n
  end.

(** [attr.key?.argument?.name] *)
Definition key_argument_name (attr : VAttr) : JsValue :=
  match attr with
  | VDirective _ (Some (ArgIdentifier a)) _ => JsString a
  | _ => JsUndefined
  end.

#[export] Instance VAttr_AttrLike : AttrLike VAttr :=
  λ attr, match attr with
          | VAttribute _ v => ValVLiteral <$> v
          | VDirective _ _ v => ValVExpressionContainer <$> v
          end.

Definition element (tag : string) (attrs : list VAttr) : VElement :=
  {| name := tag; startTag_attributes := Some attrs |}.

End Vue.

(** ** utils/event-utils.ts *)

Module EventUtils.
Import Jsx Vue.

Definition JSX_CLICK_HANDLERS : list string :=
  ["onClick"; "onClickCapture"].

Definition JSX_KEYBOARD_HANDLERS : list string :=
  ["onKeyDown"; "onKeyDownCapture"; "onKeyUp"; "onKeyUpCapture";
   "onKeyPress"; "onKeyPressCapture"].

Definition JSX_MOUSE_HANDLERS : list string :=
  ["onMouseDown"; "onMouseDownCapture"; "onMouseUp"; "onMouseUpCapture";
   "onMouseOver"; "onMouseOverCapture"; "onMouseOut"; "onMouseOutCapture";
   "onMouseEnter"; "onMouseLeave"].

Definition JSX_FOCUS_HANDLERS : list string :=
  ["onFocus"; "onFocusCapture"; "onBlur"; "onBlurCapture"].

Definition VUE_CLICK_HANDLERS : list string :=
  ["click"; "@click"; "v-on:click"].

Definition VUE_KEYBOARD_HANDLERS : list string :=
  ["keydown"; "keyup"; "keypress";
   "@keydown"; "@keyup"; "@keypress";
   "v-on:keydown"; "v-on:keyup"; "v-on:keypress"].

Definition VUE_MOUSE_HANDLERS : list string :=
  ["mousedown"; "mouseup"; "mouseover"; "mouseout"; "mouseenter"; "mouseleave";
   "@mousedown"; "@mouseup"; "@mouseover"; "@mouseout"; "@mouseenter";
   "@mouseleave";
   "v-on:mousedown"; "v-on:mouseup"; "v-on:mouseover"; "v-on:mouseout";
   "v-on:mouseenter"; "v-on:mouseleave"].

Definition VUE_FOCUS_HANDLERS : list string :=
  ["focus"; "blur"; "@focus"; "@blur"; "v-on:focus"; "v-on:blur"].

Definition JSX_CLICK_HANDLERS_SET := new_Set JSX_CLICK_HANDLERS.
Definition JSX_KEYBOARD_HANDLERS_SET := new_Set JSX_KEYBOARD_HANDLERS.
Definition JSX_MOUSE_HANDLERS_SET := new_Set JSX_MOUSE_HANDLERS.
Definition JSX_FOCUS_HANDLERS_SET := new_Set JSX_FOCUS_HANDLERS.
Definition JSX_ALL_HANDLERS_SET :=
  new_Set (JSX_CLICK_HANDLERS ++ JSX_KEYBOARD_HANDLERS
           ++ JSX_MOUSE_HANDLERS ++ JSX_FOCUS_HANDLERS).

Definition VUE_CLICK_HANDLER_SET := new_Set VUE_CLICK_HANDLERS.
Definition VUE_CLICK_EVENT_NAMES := new_Set ["click"].

Definition VUE_KEYBOARD_HANDLER_SET := new_Set VUE_KEYBOARD_HANDLERS.
Definition VUE_KEYBOARD_EVENT_NAMES := new_Set ["keydown"; "keyup"; "keypress"].

Definition VUE_MOUSE_HANDLER_SET := new_Set VUE_MOUSE_HANDLERS.
Definition VUE_MOUSE_EVENT_NAMES :=
  new_Set ["mousedown"; "mouseup"; "mouseover"; "mouseout"; "mouseenter";
           "mouseleave"].

Definition VUE_FOCUS_HANDLER_SET := new_Set VUE_FOCUS_HANDLERS.
Definition VUE_FOCUS_EVENT_NAMES := new_Set ["focus"; "blur"].

Definition VUE_ALL_HANDLER_SET :=
  new_Set (VUE_CLICK_HANDLERS ++ VUE_KEYBOARD_HANDLERS
           ++ VUE_MOUSE_HANDLERS ++ VUE_FOCUS_HANDLERS).
Definition VUE_ALL_EVENT_NAMES :=
  new_Set (spread VUE_CLICK_EVENT_NAMES ++ spread VUE_KEYBOARD_EVENT_NAMES
           ++ spread VUE_MOUSE_EVENT_NAMES ++ spread VUE_FOCUS_EVENT_NAMES).

(** The callback the five JSX queries pass to [some], for their set:
    [attr.type !== 'JSXSpreadAttribute' && attr.name?.name
     && SET.has(attr.name.name)]. *)
Definition jsx_handler_in (handlerSet : gset string) (attr : JSXAttr) : bool :=
  negb (is_spread attr)
  && truthy (attr_name_name attr)
  && has handlerSet (attr_name_name attr).

Definition hasJSXClickHandler (node : JSXOpeningElement) : bool :=
  some (jsx_handler_in JSX_CLICK_HANDLERS_SET) (Jsx.attributes node).

Definition hasJSXKeyboardHandler (node : JSXOpeningElement) : bool :=
  some (jsx_handler_in JSX_KEYBOARD_HANDLERS_SET) (Jsx.attributes node).

Definition hasJSXMouseHandler (node : JSXOpeningElement) : bool :=
  some (jsx_handler_in JSX_MOUSE_HANDLERS_SET) (Jsx.attributes node).

Definition hasJSXFocusHandler (node : JSXOpeningElement) : bool :=
  some (jsx_handler_in JSX_FOCUS_HANDLERS_SET) (Jsx.attributes node).

Definition hasJSXEventHandler (node : JSXOpeningElement) : bool :=
  some (jsx_handler_in JSX_ALL_HANDLERS_SET) (Jsx.attributes node).

(** The callback of [hasVueEventAttribute]. *)
Definition vue_handler_in (handlerSet eventNames : gset string)
                          (attr : VAttr) : bool :=
  if truthy (key_name attr) && has handlerSet (key_name attr) then true
  else if directive attr && strict_eq_string (key_name_name attr) "on" then
    let argument := key_argument_name attr in
    truthy argument && has eventNames argument
  else false.

Definition hasVueEventAttribute (node : VElement)
                                (handlerSet eventNames : gset string) : bool :=
  match startTag_attributes node with
  | None => false
  | Some attrs => existsb (vue_handler_in handlerSet eventNames) attrs
  end.

Definition hasVueClickHandler (node : VElement) : bool :=
  hasVueEventAttribute node VUE_CLICK_HANDLER_SET VUE_CLICK_EVENT_NAMES.

Definition hasVueKeyboardHandler (node : VElement) : bool :=
  hasVueEventAttribute node VUE_KEYBOARD_HANDLER_SET VUE_KEYBOARD_EVENT_NAMES.

Definition hasVueMouseHandler (node : VElement) : bool :=
  hasVueEventAttribute node VUE_MOUSE_HANDLER_SET VUE_MOUSE_EVENT_NAMES.

Definition hasVueFocusHandler (node : VElement) : bool :=
  hasVueEventAttribute node VUE_FOCUS_HANDLER_SET VUE_FOCUS_EVENT_NAMES.

Definition hasVueEventHandler (node : VElement) : bool :=
  hasVueEventAttribute node VUE_ALL_HANDLER_SET VUE_ALL_EVENT_NAMES.

(** The specification's four categories, indexing the tables and the
    queries above. *)
Inductive HandlerCategory : Type := Click | Keyboard | Mouse | Focus.

Definition JSX_HANDLERS_SET (c : HandlerCategory) : gset string :=
  match c with
  | Click => JSX_CLICK_HANDLERS_SET
  | Keyboard => JSX_KEYBOARD_HANDLERS_SET
  | Mouse => JSX_MOUSE_HANDLERS_SET
  | Focus => JSX_FOCUS_HANDLERS_SET
  end.

Definition VUE_HANDLERS (c : HandlerCategory) : list string :=
  match c with
  | Click => VUE_CLICK_HANDLERS
  | Keyboard => VUE_KEYBOARD_HANDLERS
  | Mouse => VUE_MOUSE_HANDLERS
  | Focus => VUE_FOCUS_HANDLERS
  end.

Definition VUE_EVENT_NAMES (c : HandlerCategory) : gset string :=
  match c with
  | Click => VUE_CLICK_EVENT_NAMES
  | Keyboard => VUE_KEYBOARD_EVENT_NAMES
  | Mouse => VUE_MOUSE_EVENT_NAMES
  | Focus => VUE_FOCUS_EVENT_NAMES
  end.

Definition hasJSXHandler (c : HandlerCategory) : JSXOpeningElement → bool :=
  match c with
  | Click => hasJSXClickHandler
  | Keyboard => hasJSXKeyboardHandler
  | Mouse => hasJSXMouseHandler
  | Focus => hasJSXFocusHandler
  end.

End EventUtils.

(** ** Attribute lookup *)

Module JsxAstUtils.
Import Jsx.

(** Modelled from the spec: [utils/jsx-ast-utils.ts] is not among the
    sources.  Section 4.1: a lookup is by attribute name, and a spread
    never counts as the attribute being there.  [named n] is the test
    both lookups apply to each attribute. *)
Definition named (n : string) (attr : JSXAttr) : bool :=
  negb (is_spread attr) && strict_eq_string (attr_name_name attr) n.

(** Modelled from the spec: [getAttribute(node, name)] of section 4.1 for
    the JSX dialect, the first attribute of that name or absent. *)
Definition getJSXAttribute (node : JSXOpeningElement) (n : string)
  : option JSXAttr :=
  find (named n) (attributes node).

(** Modelled from the spec: [hasAttribute(node, name)] of section 4.1 for
    the JSX dialect. *)
Definition hasJSXAttribute (node : JSXOpeningElement) (n : string) : bool :=
  some (named n) (attributes node).

End JsxAstUtils.

Module VueAstUtils.
Import Vue.

(** Modelled from the spec: [utils/vue-ast-utils.ts] is not among the
    sources.  Section 3 gives an attribute entry a name and a static or
    a dynamic value, and section 4.1 excludes spreads: a plain attribute
    is found under its key, a [v-bind:name] under its argument (its
    value is dynamic), an argument-less [v-bind] (the spread) and every
    other directive under no name. *)
Definition named (n : string) (attr : VAttr) : bool :=
  match attr with
  | VAttribute k _ => String.eqb k n
  | VDirective d (Some (ArgIdentifier a)) _ =>
      String.eqb d "bind" && String.eqb a n
  | VDirective _ _ _ => false
  end.

(** Modelled from the spec: [getAttribute(node, name)] of section 4.1 for
    the template dialect. *)
Definition getVueAttribute (node : VElement) (n : string) : option VAttr :=
  find (named n) (startTag_attributes node).

(** Modelled from the spec: [hasAttribute(node, name)] of section 4.1 for
    the template dialect. *)
Definition hasVueAttribute (node : VElement) (n : string) : bool :=
  some (named n) (startTag_attributes node).

End VueAstUtils.

(** ** Component-role resolution *)

Module ComponentMapping.
Import Jsx.

Record ComponentEntry : Type := {
  nativeTag : string;
  polymorphicPropNames : option (gset string)
}.

Record Mapping : Type := {
  components : gmap string ComponentEntry;
  defaultPolymorphicPropNames : gset string
}.

(** The default polymorphic prop names of section 3. *)
Definition DEFAULT_POLYMORPHIC_PROPS : gset string :=
  new_Set ["as"; "component"].

(** The mapping [{ "Button": { nativeTag: "button" } }] of the
    specification's example, with the default polymorphic props. *)
Definition button_mapping : Mapping :=
  {| components :=
       {[ "Button" := {| nativeTag := "button"; polymorphicPropNames := None |} ]};
     defaultPolymorphicPropNames := DEFAULT_POLYMORPHIC_PROPS |}.

(** A run with no component mapped. *)
Definition no_mapping : Mapping :=
  {| components := ∅;
     defaultPolymorphicPropNames := DEFAULT_POLYMORPHIC_PROPS |}.

(** A few native tags for the examples below. *)
Definition EXAMPLE_NATIVE_TAGS : gset string :=
  new_Set ["a"; "button"; "div"; "input"; "nav"; "span"; "td"; "th"].

Section Resolver.

(** The table of recognized native tags is not among the sources. *)
Variable NATIVE_TAGS : gset string.

(** Modelled from the spec: [getStaticStringValue] of section 4.1 on
    one attribute; a string literal is static, an expression is
    dynamic. *)
Definition getStaticStringValue (attr : JSXAttr) : option string :=
  match attr_value attr with
  | Some (ValLiteral (JsString s)) => Some s
  | _ => None
  end.

(** Modelled from the spec: step 3 of section 4.3 on one attribute.
    The attribute names a polymorphic prop and its value is a static
    string that is a recognized native tag or a mapped component. *)
Definition polymorphicTarget (mapping : Mapping) (props : gset string)
                             (attr : JSXAttr) : option string :=
  if negb (is_spread attr) && has props (attr_name_name attr) then
    match getStaticStringValue attr with
    | Some v =>
        if bool_decide (v ∈ NATIVE_TAGS)
           || bool_decide (is_Some (components mapping !! v))
        then Some v else None
    | None => None
    end
  else None.

(** Modelled from the spec: [component-mapping.ts] is not among the
    sources.  The algorithm of section 4.3: a native tag is returned
    as it is; otherwise the mapped tag is the candidate, and the first
    polymorphic prop with a resolvable static value overrides it. *)
Definition resolveNativeTag (node : JSXOpeningElement) (mapping : Mapping)
  : option string :=
  match Jsx.name node with
  | JSXIdentifier tag =>
      if bool_decide (tag ∈ NATIVE_TAGS) then Some tag
      else
        let entry := components mapping !! tag in
        let candidate := nativeTag <$> entry in
        let props :=
          default (defaultPolymorphicPropNames mapping)
                  (entry ≫= polymorphicPropNames) in
        let override :=
          find_map (polymorphicTarget mapping props)
                   (default [] (attributes node)) in
        match override with
        | Some v => Some v
        | None => candidate
        end
  | _ => None
  end.

(** Modelled from the spec: the rules' entry point to the resolver,
    with the mapping of the run. *)
Definition getElementRoleFromJSX (mapping : Mapping)
                                 (node : JSXOpeningElement) : option string :=
  resolveNativeTag node mapping.

End Resolver.

End ComponentMapping.

(** ** Reports *)

(** The node a report points at: the visited element, or one of its
    attributes. *)
Inductive ReportNode (A : Type) : Type :=
| AtElement
| AtAttribute (attr : A).
Arguments AtElement {A}.
Arguments AtAttribute {A} attr.

(** The argument of [context.report]. *)
Record Report (A : Type) : Type := {
  node : ReportNode A;
  messageId : string;
  data : list (string * JsValue)
}.
Arguments node {A} _.
Arguments messageId {A} _.
Arguments data {A} _.

(** ** rules/form-label *)

Module FormLabel.
Import Jsx Vue JsxAstUtils VueAstUtils.

Definition missingLabel {A} : Report A :=
  {| node := AtElement; messageId := "missingLabel"; data := [] |}.

Definition is_form_control (tagName : string) : bool :=
  String.eqb tagName "input" || String.eqb tagName "select"
  || String.eqb tagName "textarea".

Definition JSXOpeningElement (jsxNode : Jsx.JSXOpeningElement)
  : list (Report JSXAttr) :=
  match Jsx.name jsxNode with
  | JSXIdentifier n =>
      let tagName := toLowerCase n in
      if is_form_control tagName then
        let hasAriaLabel := hasJSXAttribute jsxNode "aria-label" in
        let hasAriaLabelledBy := hasJSXAttribute jsxNode "aria-labelledby" in
        let idAttr :=
          find (λ attr, strict_eq_string (attr_name_name attr) "id")
               (Jsx.attributes jsxNode) in
        let id := attr_value_value idAttr in
        if negb hasAriaLabel && negb hasAriaLabelledBy && negb (truthy id)
        then [missingLabel] else []
      else []
  | _ => []
  end.

Definition VElement (vueNode : Vue.VElement) : list (Report VAttr) :=
  let tagName := toLowerCase (Vue.name vueNode) in
  if is_form_control tagName then
    let hasAriaLabel := hasVueAttribute vueNode "aria-label" in
    let hasAriaLabelledBy := hasVueAttribute vueNode "aria-labelledby" in
    let idAttr := getVueAttribute vueNode "id" in
    let id := attr_value_value idAttr in
    if negb hasAriaLabel && negb hasAriaLabelledBy && negb (truthy id)
    then [missingLabel] else []
  else [].

End FormLabel.

(** ** rules/anchor-is-valid *)

Module AnchorIsValid.
Import Jsx Vue JsxAstUtils VueAstUtils.

Definition INVALID_HREFS : gset string := new_Set [""; "#"].

Definition isInvalidHref (value : string) : bool :=
  if has INVALID_HREFS (JsString value) then true
  else if startsWith (toLowerCase value) "javascript:" then true
  else false.

Definition missingHref {A} : Report A :=
  {| node := AtElement; messageId := "missingHref"; data := [] |}.

Definition preferButton {A} : Report A :=
  {| node := AtElement; messageId := "preferButton"; data := [] |}.

Definition invalidHref {A} (hrefValue : string) : Report A :=
  {| node := AtElement; messageId := "invalidHref";
     data := [("href", JsString hrefValue)] |}.

Section Rule.

(** [isElementLike(node, context, tag)] of [component-mapping.ts], for
    the context of the run; it is only asked about elements that are
    not written [<a>]. *)
Variable isElementLike : Jsx.JSXOpeningElement → string → bool.

Definition JSXOpeningElement (jsxNode : Jsx.JSXOpeningElement)
  : list (Report JSXAttr) :=
  match Jsx.name jsxNode with
  | JSXIdentifier n =>
      if negb (String.eqb n "a") && negb (isElementLike jsxNode "a") then []
      else
        let hrefAttr := getJSXAttribute jsxNode "href" in
        let hasOnClick := hasJSXAttribute jsxNode "onClick" in
        match hrefAttr with
        | None => if hasOnClick then [preferButton] else [missingHref]
        | Some attr =>
            match attr_value attr with
            | Some (ValLiteral (JsString hrefValue)) =>
                if isInvalidHref hrefValue then [invalidHref hrefValue]
                else []
            | _ => []
            end
        end
  | _ => []
  end.

End Rule.

Definition VElement (vueNode : Vue.VElement) : list (Report VAttr) :=
  if negb (String.eqb (Vue.name vueNode) "a") then []
  else
    let hrefAttr := getVueAttribute vueNode "href" in
    let hasClickHandler :=
      some (λ attr, directive attr
                    && strict_eq_string (key_name_name attr) "on"
                    && strict_eq_string (key_argument_name attr) "click")
           (startTag_attributes vueNode) in
    match hrefAttr with
    | None => if hasClickHandler then [preferButton] else [missingHref]
    | Some attr =>
        match attr_value_value (Some attr) with
        | JsString hrefValue =>
            if isInvalidHref hrefValue then [invalidHref hrefValue] else []
        | _ => []
        end
    end.

End AnchorIsValid.

(** ** rules/no-noninteractive-element-to-interactive-role *)

Module NoNoninteractiveElementToInteractiveRole.
Import Jsx Vue JsxAstUtils VueAstUtils.

Definition NON_INTERACTIVE_ELEMENTS : gset string :=
  new_Set
    ["div"; "span"; "section"; "article"; "aside"; "footer"; "header"; "nav";
     "main";
     "p"; "ul"; "ol"; "li"; "dl"; "dt"; "dd";
     "table"; "thead"; "tbody"; "tfoot"; "tr"; "th"; "td"; "caption";
     "figure"; "figcaption"; "blockquote"; "pre"; "code"; "em"; "strong";
     "small"; "mark"; "sub"; "sup"; "address"; "time"; "abbr";
     "h1"; "h2"; "h3"; "h4"; "h5"; "h6";
     "img"; "hr"].

Definition INTERACTIVE_ROLES : gset string :=
  new_Set
    ["button"; "link"; "checkbox"; "radio"; "textbox"; "combobox"; "listbox";
     "option"; "menuitem"; "menuitemcheckbox"; "menuitemradio"; "slider";
     "spinbutton"; "switch"; "tab"; "treeitem"; "gridcell"; "searchbox";
     "scrollbar"].

Definition JSX_KEYBOARD_HANDLERS : list string :=
  ["onKeyDown"; "onKeyUp"; "onKeyPress"].

Definition hasJSXKeyboardHandler (node : Jsx.JSXOpeningElement) : bool :=
  existsb (λ handler, hasJSXAttribute node handler) JSX_KEYBOARD_HANDLERS.

Definition hasVueKeyboardHandler (node : Vue.VElement) : bool :=
  existsb (λ attr,
             directive attr
             && strict_eq_string (key_name_name attr) "on"
             && existsb (strict_eq_string (key_argument_name attr))
                        ["keydown"; "keyup"; "keypress"])
          (default [] (startTag_attributes node)).

Definition noNoninteractiveToInteractive {A} (element role : string)
  : Report A :=
  {| node := AtElement; messageId := "noNoninteractiveToInteractive";
     data := [("element", JsString element); ("role", JsString role)] |}.

(** The role the JSX visitor resolves: a string literal, bare or in
    braces, lower-cased; [None] is its [null]. *)
Definition jsx_role (roleAttr : JSXAttr) : option string :=
  match attr_value roleAttr with
  | Some (ValLiteral (JsString s)) => Some (toLowerCase s)
  | Some (ValJSXExpressionContainer (Literal (JsString s))) =>
      Some (toLowerCase s)
  | _ => None
  end.

Section Rule.

(** [getElementRoleFromJSX(node, context)] of [component-mapping.ts],
    for the context of the run. *)
Variable getElementRoleFromJSX : Jsx.JSXOpeningElement → option string.

Definition JSXOpeningElement (jsxNode : Jsx.JSXOpeningElement)
  : list (Report JSXAttr) :=
  match getElementRoleFromJSX jsxNode with
  | None => []
  | Some tagName =>
      if negb (truthy (JsString tagName))
         || negb (has NON_INTERACTIVE_ELEMENTS (JsString tagName))
      then []
      else
        match getJSXAttribute jsxNode "role" with
        | None => []
        | Some roleAttr =>
            match jsx_role roleAttr with
            | None => []
            | Some role =>
                if negb (truthy (JsString role))
                   || negb (has INTERACTIVE_ROLES (JsString role))
                then []
                else
                  let hasTabIndex :=
                    hasJSXAttribute jsxNode "tabIndex"
                    || hasJSXAttribute jsxNode "tabindex" in
                  let hasKeyboard := hasJSXKeyboardHandler jsxNode in
                  if negb hasTabIndex || negb hasKeyboard
                  then [noNoninteractiveToInteractive tagName role]
                  else []
            end
        end
  end.

End Rule.

Definition VElement (vueNode : Vue.VElement) : list (Report VAttr) :=
  let tagName := toLowerCase (Vue.name vueNode) in
  if negb (has NON_INTERACTIVE_ELEMENTS (JsString tagName)) then []
  else
    let roleAttr := getVueAttribute vueNode "role" in
    match attr_value_value roleAttr with
    | JsString s =>
        let role := toLowerCase s in
        if negb (truthy (JsString role))
           || negb (has INTERACTIVE_ROLES (JsString role))
        then []
        else
          let hasTabIndex := hasVueAttribute vueNode "tabindex" in
          let hasKeyboard := hasVueKeyboardHandler vueNode in
          if negb hasTabIndex || negb hasKeyboard
          then [noNoninteractiveToInteractive tagName role]
          else []
    | _ => []
    end.

End NoNoninteractiveElementToInteractiveRole.

(** ** rules/scope *)

Module Scope.
Import Jsx Vue JsxAstUtils VueAstUtils.

Definition VALID_SCOPE_VALUES : gset string :=
  new_Set ["col"; "row"; "colgroup"; "rowgroup"].

Definition invalidElement {A} (tagName : string) : Report A :=
  {| node := AtElement; messageId := "invalidElement";
     data := [("element", JsString tagName)] |}.

Definition invalidValue {A} (scopeAttr : A) (scopeValue : string) : Report A :=
  {| node := AtAttribute scopeAttr; messageId := "invalidValue";
     data := [("value", JsString scopeValue)] |}.

Definition JSXOpeningElement (jsxNode : Jsx.JSXOpeningElement)
  : list (Report JSXAttr) :=
  match Jsx.name jsxNode with
  | JSXIdentifier n =>
      if negb (hasJSXAttribute jsxNode "scope") then []
      else
        let tagName := toLowerCase n in
        if negb (String.eqb tagName "th") then [invalidElement tagName]
        else
          match getJSXAttribute jsxNode "scope" with
          | None => []
          | Some scopeAttr =>
              match attr_value scopeAttr with
              | None => []
              | Some value =>
                  let scopeValue : option string :=
                    match value with
                    | ValLiteral (JsString s) => Some (toLowerCase s)
                    | ValJSXExpressionContainer (Literal (JsString s)) =>
                        Some (toLowerCase s)
                    | _ => None
                    end in
                  match scopeValue with
                  | Some v =>
                      if negb (has VALID_SCOPE_VALUES (JsString v))
                      then [invalidValue scopeAttr v] else []
                  | None => []
                  end
              end
          end
  | _ => []
  end.

Definition VElement (vueNode : Vue.VElement) : list (Report VAttr) :=
  let tagName := toLowerCase (Vue.name vueNode) in
  if negb (hasVueAttribute vueNode "scope") then []
  else if negb (String.eqb tagName "th") then [invalidElement tagName]
  else
    let scopeAttr := getVueAttribute vueNode "scope" in
    match scopeAttr, attr_value_value scopeAttr with
    | Some attr, JsString s =>
        let scopeValue := toLowerCase s in
        if negb (has VALID_SCOPE_VALUES (JsString scopeValue))
        then [invalidValue attr scopeValue] else []
    | _, _ => []
    end.

End Scope.

(** ** rules/prefer-tag-over-role *)

Module PreferTagOverRole.
Import Jsx Vue JsxAstUtils VueAstUtils.

(** [name="value"] inside a message text. *)
Definition quoted (name value : string) : string :=
  let q := String (ascii_of_N 34) EmptyString in
  name ++ "=" ++ q ++ value ++ q.

Definition ROLE_TO_TAG : gmap string string :=
  list_to_map
    [("button", "<button>");
     ("checkbox", "<input " ++ quoted "type" "checkbox" ++ ">");
     ("combobox", "<select>");
     ("form", "<form>");
     ("heading", "<h1>–<h6> (with aria-level)");
     ("img", "<img>");
     ("link", "<a " ++ quoted "href" "..." ++ ">");
     ("list", "<ul> or <ol>");
     ("listitem", "<li>");
     ("listbox", "<select multiple>");
     ("main", "<main>");
     ("navigation", "<nav>");
     ("complementary", "<aside>");
     ("banner", "<header>");
     ("contentinfo", "<footer>");
     ("region", "<section " ++ quoted "aria-label" "..." ++ ">");
     ("radio", "<input " ++ quoted "type" "radio" ++ ">");
     ("searchbox", "<input " ++ quoted "type" "search" ++ ">");
     ("slider", "<input " ++ quoted "type" "range" ++ ">");
     ("spinbutton", "<input " ++ quoted "type" "number" ++ ">");
     ("table", "<table>");
     ("textbox", "<input> or <textarea>");
     ("meter", "<meter>");
     ("progressbar", "<progress>");
     ("radiogroup", "<fieldset>");
     ("row", "<tr>");
     ("rowgroup", "<thead>, <tbody>, or <tfoot>");
     ("columnheader", "<th " ++ quoted "scope" "col" ++ ">");
     ("rowheader", "<th " ++ quoted "scope" "row" ++ ">");
     ("article", "<article>");
     ("separator", "<hr>");
     ("term", "<dt>");
     ("definition", "<dd>")].

(** The names every object inherits from [Object.prototype]; a property
    read finds them when the table has no entry of its own. *)
Definition Object_prototype : gset string :=
  new_Set
    ["constructor"; "__defineGetter__"; "__defineSetter__"; "hasOwnProperty";
     "__lookupGetter__"; "__lookupSetter__"; "isPrototypeOf";
     "propertyIsEnumerable"; "toString"; "valueOf"; "__proto__";
     "toLocaleString"].

(** [ROLE_TO_TAG[role]] *)
Definition ROLE_TO_TAG_at (role : string) : JsValue :=
  match ROLE_TO_TAG !! role with
  | Some tag => JsString tag
  | None => if bool_decide (role ∈ Object_prototype) then JsObject
            else JsUndefined
  end.

Definition getStaticRole {N A : Type} `{AttrLike A}
                         (node : N) (getRoleAttr : N → option A)
  : option string :=
  let roleAttr := getRoleAttr node in
  match roleAttr ≫= attr_value with
  | None => None
  | Some value =>
      match value with
      | ValLiteral (JsString s) => Some (toLowerCase s)
      | ValJSXExpressionContainer (Literal (JsString s)) =>
          Some (toLowerCase s)
      | _ =>
          match value_value value with
          | JsString s => Some (toLowerCase s)
          | _ => None
          end
      end
  end.

Definition GENERIC_ELEMENTS : gset string :=
  new_Set
    ["div"; "span"; "section"; "article"; "aside"; "footer"; "header";
     "nav"; "main"; "p"; "ul"; "ol"; "li"; "dl"; "dt"; "dd";
     "figure"; "figcaption"; "blockquote"; "pre"; "i"; "b"; "em";
     "strong"; "small"; "mark"; "sub"; "sup"; "address"].

Definition preferTag {A} (preferredTag : JsValue) (role : string) : Report A :=
  {| node := AtElement; messageId := "preferTag";
     data := [("tag", preferredTag); ("role", JsString role)] |}.

(** The part the two visitors share, from the role on. *)
Definition check {N A : Type} `{AttrLike A}
                 (node : N) (getRoleAttr : N → option A) : list (Report A) :=
  match getStaticRole node getRoleAttr with
  | None => []
  | Some role =>
      if negb (truthy (JsString role)) then []
      else
        let preferredTag := ROLE_TO_TAG_at role in
        if negb (truthy preferredTag) then []
        else [preferTag preferredTag role]
  end.

Definition JSXOpeningElement (jsxNode : Jsx.JSXOpeningElement)
  : list (Report JSXAttr) :=
  match Jsx.name jsxNode with
  | JSXIdentifier n =>
      let tagName := toLowerCase n in
      if negb (has GENERIC_ELEMENTS (JsString tagName)) then []
      else check jsxNode (λ n, getJSXAttribute n "role")
  | _ => []
  end.

Definition VElement (vueNode : Vue.VElement) : list (Report VAttr) :=
  let tagName := toLowerCase (Vue.name vueNode) in
  if negb (has GENERIC_ELEMENTS (JsString tagName)) then []
  else check vueNode (λ n, getVueAttribute n "role").

End PreferTagOverRole.

(** ** parseInt *)

Module JsParse.

(** White space that [parseInt] skips at the front of a string: the
    WhiteSpace and LineTerminator characters of ECMAScript.  Among the
    ASCII characters these are tab, line feed, vertical tab, form feed,
    carriage return and space. *)
Definition isWhiteSpace (c : ascii) : bool :=
  let n := N_of_ascii c in
  ((9 <=? n)%N && (n <=? 13)%N) || (n =? 32)%N.

(** U+00A0, the no-break space, is the bytes C2 A0. *)
Definition isWhiteSpace2 (c1 c2 : ascii) : bool :=
  (N_of_ascii c1 =? 194)%N && (N_of_ascii c2 =? 160)%N.

(** The white space of three bytes: U+1680 (E1 9A 80), U+2000 to U+200A
    (E2 80 80 to 8A), the line and paragraph separators U+2028 and U+2029
    (E2 80 A8, A9), U+202F (E2 80 AF), U+205F (E2 81 9F), U+3000
    (E3 80 80) and the byte order mark U+FEFF (EF BB BF). *)
Definition isWhiteSpace3 (c1 c2 c3 : ascii) : bool :=
  let n1 := N_of_ascii c1 in
  let n2 := N_of_ascii c2 in
  let n3 := N_of_ascii c3 in
  ((n1 =? 225) && (n2 =? 154) && (n3 =? 128))%N
  || ((n1 =? 226) && (n2 =? 128)
      && (((128 <=? n3) && (n3 <=? 138))
          || (n3 =? 168) || (n3 =? 169) || (n3 =? 175)))%N
  || ((n1 =? 226) && (n2 =? 129) && (n3 =? 159))%N
  || ((n1 =? 227) && (n2 =? 128) && (n3 =? 128))%N
  || ((n1 =? 239) && (n2 =? 187) && (n3 =? 191))%N.

Fixpoint trimStart (s : string) : string :=
  match s with
  | EmptyString => EmptyString
  | String c1 rest1 =>
      if isWhiteSpace c1 then trimStart rest1
      else
        match rest1 with
        | String c2 rest2 =>
            if isWhiteSpace2 c1 c2 then trimStart rest2
            else
              match rest2 with
              | String c3 rest3 =>
                  if isWhiteSpace3 c1 c2 c3 then trimStart rest3 else s
              | EmptyString => s
              end
        | EmptyString => s
        end
  end.

(** The value of a decimal digit, if the character is one. *)
Definition digit (c : ascii) : option Z :=
  let n := N_of_ascii c in
  if (48 <=? n)%N && (n <=? 57)%N then Some (Z.of_N (n - 48)) else None.

(** The digits at the front of [s], read in base ten from [acc] on;
    [None] when [s] does not start with a digit. *)
Fixpoint digits (acc : option Z) (s : string) : option Z :=
  match s with
  | String c rest =>
      match digit c with
      | Some d => digits (Some (10 * default 0%Z acc + d)%Z) rest
      | None => acc
      end
  | EmptyString => acc
  end.

(** [parseInt(s, 10)]; [None] is NaN.  The result is the integer the
    digits denote: the source only tests it with [isNaN] and [> 1], which
    the rounding of a long digit string to a double does not change. *)
Definition parseInt (s : string) : option Z :=
  match trimStart s with
  | String "-"%char rest => Z.opp <$> digits None rest
  | String "+"%char rest => digits None rest
  | unsigned => digits None unsigned
  end.

End JsParse.

(** ** rules/no-redundant-roles *)

Module NoRedundantRoles.
Import Jsx Vue JsxAstUtils VueAstUtils JsParse.

Definition getImplicitRole (tagName : string)
                           (getAttr : string → option string)
                           (hasAttr : string → bool) : option string :=
  if String.eqb tagName "button" then Some "button"
  else if String.eqb tagName "nav" then Some "navigation"
  else if String.eqb tagName "main" then Some "main"
  else if String.eqb tagName "aside" then Some "complementary"
  else if String.eqb tagName "ul" || String.eqb tagName "ol" then Some "list"
  else if String.eqb tagName "li" then Some "listitem"
  else if String.eqb tagName "img" then Some "img"
  else if String.eqb tagName "h1" || String.eqb tagName "h2"
          || String.eqb tagName "h3" || String.eqb tagName "h4"
          || String.eqb tagName "h5" || String.eqb tagName "h6"
       then Some "heading"
  else if String.eqb tagName "article" then Some "article"
  else if String.eqb tagName "table" then Some "table"
  else if String.eqb tagName "tr" then Some "row"
  else if String.eqb tagName "textarea" then Some "textbox"
  else if String.eqb tagName "a" then
    match getAttr "href" with
    | Some href =>
        if negb (String.eqb href "") && negb (String.eqb href "#")
           && negb (startsWith (toLowerCase href) "javascript:")
        then Some "link" else None
    | None => None
    end
  else if String.eqb tagName "input" then
    let type := toLowerCase (default "text" (getAttr "type")) in
    if String.eqb type "checkbox" then Some "checkbox"
    else if String.eqb type "radio" then Some "radio"
    else if String.eqb type "range" then Some "slider"
    else if String.eqb type "number" then Some "spinbutton"
    else if String.eqb type "text" || String.eqb type "email"
            || String.eqb type "password" || String.eqb type "search"
            || String.eqb type "tel" || String.eqb type "url"
         then Some "textbox"
    else None
  else if String.eqb tagName "select" then
    if hasAttr "multiple" then Some "listbox"
    else
      let size := parseInt (default "1" (getAttr "size")) in
      match size with
      | Some n => if (1 <? n)%Z then Some "listbox" else Some "combobox"
      | None => Some "combobox"
      end
  else if String.eqb tagName "section" || String.eqb tagName "form" then
    if hasAttr "aria-label" || hasAttr "aria-labelledby" then
      if String.eqb tagName "section" then Some "region" else Some "form"
    else None
  else None.

(** An entry of a report's [suggest] array: its text, and the attribute
    its fix removes. *)
Record Suggestion : Type := {
  desc : string;
  fix_remove : JSXAttr
}.

Definition redundantRole {A} (roleAttr : A) (explicitRole tagName : string)
  : Report A :=
  {| node := AtAttribute roleAttr; messageId := "redundantRole";
     data := [("role", JsString explicitRole); ("element", JsString tagName)] |}.

(** The explicit role the JSX visitor resolves; [None] is its [null]. *)
Definition jsx_explicitRole (roleAttr : JSXAttr) : option string :=
  match attr_value roleAttr with
  | Some (ValLiteral (JsString s)) => Some (toLowerCase s)
  | Some (ValJSXExpressionContainer (Literal (JsString s))) =>
      Some (toLowerCase s)
  | _ => None
  end.

Section Rule.

(** [getElementRoleFromJSX(node, context)] of [component-mapping.ts],
    for the context of the run. *)
Variable getElementRoleFromJSX : Jsx.JSXOpeningElement → option string.

(** [String(value)]; the properties below only use it on strings, where
    it is the identity. *)
Variable String_ : JsValue → string.

(** The [getAttr] callback of the JSX visitor. *)
Definition jsx_getAttr (jsxNode : Jsx.JSXOpeningElement) (name : string)
  : option string :=
  match getJSXAttribute jsxNode name with
  | None => None
  | Some attr =>
      match attr_value attr with
      | Some (ValLiteral v) => Some (String_ v)
      | _ => Some ""
      end
  end.

Definition JSXOpeningElement (jsxNode : Jsx.JSXOpeningElement)
  : list (Report JSXAttr * list Suggestion) :=
  match getElementRoleFromJSX jsxNode with
  | None => []
  | Some tagName =>
      if negb (truthy (JsString tagName)) then []
      else
        match getJSXAttribute jsxNode "role" with
        | None => []
        | Some roleAttr =>
            match jsx_explicitRole roleAttr with
            | None => []
            | Some explicitRole =>
                if negb (truthy (JsString explicitRole)) then []
                else
                  let implicitRole :=
                    getImplicitRole tagName (jsx_getAttr jsxNode)
                                    (λ name, hasJSXAttribute jsxNode name) in
                  match implicitRole with
                  | Some r =>
                      if truthy (JsString r) && String.eqb explicitRole r
                      then
                        [(redundantRole roleAttr explicitRole tagName,
                          [{| desc := "Remove redundant "
                                      ++ PreferTagOverRole.quoted "role"
                                           explicitRole;
                              fix_remove := roleAttr |}])]
                      else []
                  | None => []
                  end
            end
        end
  end.

End Rule.

(** The [getAttr] callback of the template visitor:
    [attr?.value?.value ?? null]. *)
Definition vue_getAttr (vueNode : Vue.VElement) (name : string)
  : option string :=
  match attr_value_value (getVueAttribute vueNode name) with
  | JsString v => Some v
  | _ => None
  end.

Definition VElement (vueNode : Vue.VElement) : list (Report VAttr) :=
  let tagName := toLowerCase (Vue.name vueNode) in
  match getVueAttribute vueNode "role" with
  | None => []
  | Some roleAttr =>
      match attr_value_value (Some roleAttr) with
      | JsString s =>
          let explicitRole := toLowerCase s in
          if negb (truthy (JsString explicitRole)) then []
          else
            let implicitRole :=
              getImplicitRole tagName (vue_getAttr vueNode)
                              (λ name, hasVueAttribute vueNode name) in
            match implicitRole with
            | Some r =>
                if truthy (JsString r) && String.eqb explicitRole r
                then [redundantRole roleAttr explicitRole tagName]
                else []
            | None => []
            end
      | _ => []
      end
  end.

End NoRedundantRoles.

(** ** rules/no-interactive-element-to-noninteractive-role *)

Module NoInteractiveElementToNoninteractiveRole.
Import Jsx Vue JsxAstUtils VueAstUtils.

Definition INTERACTIVE_ELEMENTS : gset string :=
  new_Set ["button"; "a"; "input"; "select"; "textarea"; "summary"].

Definition NONINTERACTIVE_ROLES : gset string :=
  new_Set ["none"; "presentation"].

Definition getJSXRoleValue (node : Jsx.JSXOpeningElement) : option string :=
  match getJSXAttribute node "role" with
  | None => None
  | Some roleAttr =>
      match attr_value roleAttr with
      | Some (ValLiteral (JsString s)) => Some (toLowerCase s)
      | Some (ValJSXExpressionContainer (Literal (JsString s))) =>
          Some (toLowerCase s)
      | _ => None
      end
  end.

Definition noInteractiveToNoninteractive {A} (element role : string)
  : Report A :=
  {| node := AtElement; messageId := "noInteractiveToNoninteractive";
     data := [("element", JsString element); ("role", JsString role)] |}.

(** [hrefAttr.value?.type === 'Literal' && !hrefAttr.value.value] *)
Definition jsx_falsy_literal (attr : JSXAttr) : bool :=
  match attr_value attr with
  | Some (ValLiteral v) => negb (truthy v)
  | _ => false
  end.

(** [typeAttr?.value?.type === 'Literal'
     && typeAttr.value.value === 'hidden'] *)
Definition jsx_hidden_literal (typeAttr : option JSXAttr) : bool :=
  match typeAttr ≫= attr_value with
  | Some (ValLiteral v) => strict_eq_string v "hidden"
  | _ => false
  end.

Definition JSXOpeningElement (jsxNode : Jsx.JSXOpeningElement)
  : list (Report JSXAttr) :=
  match Jsx.name jsxNode with
  | JSXIdentifier n =>
      let tagName := toLowerCase n in
      if negb (has INTERACTIVE_ELEMENTS (JsString tagName)) then []
      else
        match getJSXRoleValue jsxNode with
        | None => []
        | Some role =>
            if negb (truthy (JsString role))
               || negb (has NONINTERACTIVE_ROLES (JsString role))
            then []
            else if String.eqb tagName "a"
                    && match getJSXAttribute jsxNode "href" with
                       | None => true
                       | Some hrefAttr => jsx_falsy_literal hrefAttr
                       end
            then []
            else if String.eqb tagName "input"
                    && jsx_hidden_literal (getJSXAttribute jsxNode "type")
            then []
            else [noInteractiveToNoninteractive tagName role]
        end
  | _ => []
  end.

Definition VElement (vueNode : Vue.VElement) : list (Report VAttr) :=
  let tagName := toLowerCase (Vue.name vueNode) in
  if negb (has INTERACTIVE_ELEMENTS (JsString tagName)) then []
  else
    let roleAttr := getVueAttribute vueNode "role" in
    match attr_value_value roleAttr with
    | JsString s =>
        let role := toLowerCase s in
        if negb (truthy (JsString role))
           || negb (has NONINTERACTIVE_ROLES (JsString role))
        then []
        else if String.eqb tagName "a"
                && (let hrefAttr := getVueAttribute vueNode "href" in
                    match hrefAttr with
                    | None => true
                    | Some _ => negb (truthy (attr_value_value hrefAttr))
                    end)
        then []
        else if String.eqb tagName "input"
                && strict_eq_string
                     (attr_value_value (getVueAttribute vueNode "type"))
                     "hidden"
        then []
        else [noInteractiveToNoninteractive tagName role]
    | _ => []
    end.

End NoInteractiveElementToNoninteractiveRole.

(** ** Terms of the specification *)

Module SpecTerms.
Import Jsx Vue.

(** The name [s] ends with [p]: a capture-phase name ends with
    [Capture]. *)
Definition endsWith (s p : string) : bool :=
  String.prefix (String.rev p) (String.rev s).

(** The static string value of a JSX attribute: a string literal, written
    bare ([scope="col"]) or in braces ([scope={"col"}]).  Every other
    value is dynamic or not a string. *)
Definition jsx_static_string (attr : JSXAttr) : option string :=
  match attr_value attr with
  | Some (ValLiteral (JsString s)) => Some s
  | Some (ValJSXExpressionContainer (Literal (JsString s))) => Some s
  | _ => None
  end.

(** The static string value of a template attribute: the literal of a
    plain attribute; a directive's value is an expression. *)
Definition vue_static_string (attr : VAttr) : option string :=
  match attr with
  | VAttribute _ (Some s) => Some s
  | _ => None
  end.

(** [<tag v-on:event="...">] for a keyboard event. *)
Definition vue_keyboard_directive (attr : VAttr) : bool :=
  match attr with
  | VDirective d (Some (ArgIdentifier a)) _ =>
      String.eqb d "on"
      && (String.eqb a "keydown" || String.eqb a "keyup"
          || String.eqb a "keypress")
  | _ => false
  end.

(** A truthy literal written directly as the value of a JSX attribute
    ([id="email"]). *)
Definition jsx_bare_truthy_literal (attr : option JSXAttr) : bool :=
  match attr ≫= attr_value with
  | Some (ValLiteral v) => truthy v
  | _ => false
  end.

(** A non-empty literal value of a template attribute. *)
Definition vue_truthy_literal (attr : option VAttr) : bool :=
  match attr with
  | Some (VAttribute _ (Some s)) => negb (String.eqb s "")
  | _ => false
  end.



(** The examples' attribute values. *)
Definition str (s : string) : option JSXAttributeValue :=
  Some (JSXLiteral (JsString s)).
Definition braces (e : Expression) : option JSXAttributeValue :=
  Some (JSXExpressionContainer e).
Definition fn : option JSXAttributeValue := braces (Identifier "fn").

End SpecTerms.

(** ** Terms of the further properties *)

Module Vocabulary.
Import Jsx Vue EventUtils.

(** The five queries of each dialect by category. *)
Definition hasVueHandler (c : HandlerCategory) : Vue.VElement → bool :=
  match c with
  | Click => hasVueClickHandler
  | Keyboard => hasVueKeyboardHandler
  | Mouse => hasVueMouseHandler
  | Focus => hasVueFocusHandler
  end.

Definition VUE_HANDLER_SET (c : HandlerCategory) : gset string :=
  match c with
  | Click => VUE_CLICK_HANDLER_SET
  | Keyboard => VUE_KEYBOARD_HANDLER_SET
  | Mouse => VUE_MOUSE_HANDLER_SET
  | Focus => VUE_FOCUS_HANDLER_SET
  end.

(** The event a JSX handler name listens to: the name lower-cased,
    without its [on]. *)
Definition event_of_handler (n : string) : string :=
  match toLowerCase n with
  | String _ (String _ event) => event
  | _ => ""
  end.

(** An attribute of a JSX element that has a plain name. *)
Definition jsx_named (n : string) (attr : JSXAttr) : Prop :=
  ∃ v, attr = JSXAttribute (AttrIdentifier n) v.

(** A [v-on:event] directive, whatever its value. *)
Definition vue_on (event : string) (attr : VAttr) : Prop :=
  ∃ v, attr = VDirective "on" (Some (ArgIdentifier event)) v.

(** A plain template attribute under the key [k]. *)
Definition vue_plain (k : string) (attr : VAttr) : Prop :=
  ∃ v, attr = VAttribute k v.

(** The tags [getImplicitRole] has a [case] for, each with the roles the
    case can return. *)
Definition implicit_roles : list (string * string) :=
  [("button", "button"); ("nav", "navigation"); ("main", "main");
   ("aside", "complementary"); ("ul", "list"); ("ol", "list");
   ("li", "listitem"); ("img", "img");
   ("h1", "heading"); ("h2", "heading"); ("h3", "heading");
   ("h4", "heading"); ("h5", "heading"); ("h6", "heading");
   ("article", "article"); ("table", "table"); ("tr", "row");
   ("textarea", "textbox"); ("a", "link");
   ("input", "checkbox"); ("input", "radio"); ("input", "slider");
   ("input", "spinbutton"); ("input", "textbox");
   ("select", "listbox"); ("select", "combobox");
   ("section", "region"); ("form", "form")].

End Vocabulary.

(** * Properties *)

(** ** Sets, arrays and strings *)

Section JsFacts.

Lemma has_union (s1 s2 : gset string) (v : JsValue) :
  has (s1 ∪ s2) v = has s1 v || has s2 v.
Proof.
  destruct v; simpl; try reflexivity.
  rewrite <- bool_decide_or. apply bool_decide_ext. set_solver.
Qed.

Lemma new_Set_app (l1 l2 : list string) :
  new_Set (l1 ++ l2) = new_Set l1 ∪ new_Set l2.
Proof. unfold new_Set. apply list_to_set_app_L. Qed.

Lemma new_Set_spread (s : gset string) : new_Set (spread s) = s.
Proof. unfold new_Set, spread. apply list_to_set_elements_L. Qed.

Lemma has_true (s : gset string) (v : JsValue) :
  has s v = true ↔ ∃ x, v = JsString x ∧ x ∈ s.
Proof.
  destruct v; simpl; split; try discriminate;
    try (intros (x & Hx & _); discriminate).
  - intros Hb. apply bool_decide_eq_true in Hb. eauto.
  - intros (x & [= ->] & Hx). by apply bool_decide_eq_true.
Qed.

Lemma existsb_orb {A : Type} (p q : A → bool) (l : list A) :
  existsb (λ x, p x || q x) l = existsb p l || existsb q l.
Proof.
  induction l as [|x l IH]; simpl; [reflexivity|].
  rewrite IH. destruct (p x), (q x), (existsb p l); reflexivity.
Qed.

Lemma existsb_pointwise {A : Type} (p q : A → bool) (l : list A) :
  (∀ x, p x = q x) → existsb p l = existsb q l.
Proof. intros Hpq. induction l; simpl; [reflexivity|]. by rewrite Hpq, IHl. Qed.

Lemma some_orb {A : Type} (p q : A → bool) (array : option (list A)) :
  some (λ x, p x || q x) array = some p array || some q array.
Proof. destruct array; simpl; [apply existsb_orb | reflexivity]. Qed.

Lemma some_pointwise {A : Type} (p q : A → bool) (array : option (list A)) :
  (∀ x, p x = q x) → some p array = some q array.
Proof. intros Hpq. destruct array; simpl; [by apply existsb_pointwise | done]. Qed.

End JsFacts.

(** ** The event-handler classifier *)

Section EventUtilsFacts.
Import Jsx Vue EventUtils.

Lemma jsx_handler_in_union (s1 s2 : gset string) (attr : JSXAttr) :
  jsx_handler_in (s1 ∪ s2) attr
  = jsx_handler_in s1 attr || jsx_handler_in s2 attr.
Proof.
  unfold jsx_handler_in. rewrite has_union.
  destruct (negb (is_spread attr)), (truthy (attr_name_name attr)),
    (has s1 (attr_name_name attr)); reflexivity.
Qed.

Lemma vue_handler_in_union (h1 h2 e1 e2 : gset string) (attr : VAttr) :
  vue_handler_in (h1 ∪ h2) (e1 ∪ e2) attr
  = vue_handler_in h1 e1 attr || vue_handler_in h2 e2 attr.
Proof.
  unfold vue_handler_in. rewrite !has_union.
  destruct (truthy (key_name attr)), (has h1 (key_name attr)),
    (has h2 (key_name attr)),
    (directive attr && strict_eq_string (key_name_name attr) "on"),
    (truthy (key_argument_name attr)), (has e1 (key_argument_name attr)),
    (has e2 (key_argument_name attr)); reflexivity.
Qed.

Lemma JSX_ALL_HANDLERS_SET_union :
  JSX_ALL_HANDLERS_SET
  = JSX_CLICK_HANDLERS_SET ∪ (JSX_KEYBOARD_HANDLERS_SET
      ∪ (JSX_MOUSE_HANDLERS_SET ∪ JSX_FOCUS_HANDLERS_SET)).
Proof. unfold JSX_ALL_HANDLERS_SET. by rewrite !new_Set_app. Qed.

Lemma VUE_ALL_HANDLER_SET_union :
  VUE_ALL_HANDLER_SET
  = VUE_CLICK_HANDLER_SET ∪ (VUE_KEYBOARD_HANDLER_SET
      ∪ (VUE_MOUSE_HANDLER_SET ∪ VUE_FOCUS_HANDLER_SET)).
Proof. unfold VUE_ALL_HANDLER_SET. by rewrite !new_Set_app. Qed.

Lemma VUE_ALL_EVENT_NAMES_union :
  VUE_ALL_EVENT_NAMES
  = VUE_CLICK_EVENT_NAMES ∪ (VUE_KEYBOARD_EVENT_NAMES
      ∪ (VUE_MOUSE_EVENT_NAMES ∪ VUE_FOCUS_EVENT_NAMES)).
Proof. unfold VUE_ALL_EVENT_NAMES. by rewrite !new_Set_app, !new_Set_spread. Qed.

Lemma hasJSXEventHandler_split (node : Jsx.JSXOpeningElement) :
  hasJSXEventHandler node
  = hasJSXClickHandler node || hasJSXKeyboardHandler node
    || hasJSXMouseHandler node || hasJSXFocusHandler node.
Proof.
  unfold hasJSXEventHandler, hasJSXClickHandler, hasJSXKeyboardHandler,
    hasJSXMouseHandler, hasJSXFocusHandler.
  rewrite JSX_ALL_HANDLERS_SET_union.
  rewrite <- !some_orb. apply some_pointwise. intros attr.
  rewrite !jsx_handler_in_union. by rewrite !orb_assoc.
Qed.

Lemma hasVueEventHandler_split (node : Vue.VElement) :
  hasVueEventHandler node
  = hasVueClickHandler node || hasVueKeyboardHandler node
    || hasVueMouseHandler node || hasVueFocusHandler node.
Proof.
  unfold hasVueEventHandler, hasVueClickHandler, hasVueKeyboardHandler,
    hasVueMouseHandler, hasVueFocusHandler, hasVueEventAttribute.
  rewrite VUE_ALL_HANDLER_SET_union, VUE_ALL_EVENT_NAMES_union.
  destruct (startTag_attributes node) as [attrs|]; [|reflexivity].
  rewrite <- !existsb_orb. apply existsb_pointwise. intros attr.
  rewrite !vue_handler_in_union. by rewrite !orb_assoc.
Qed.

(** C1.  In both dialects the any-handler query is the disjunction of
    the four category queries, on every element node. *)
Theorem any_handler_is_union_of_categories :
  (∀ node : Jsx.JSXOpeningElement,
      hasJSXEventHandler node
      = hasJSXClickHandler node || hasJSXKeyboardHandler node
        || hasJSXMouseHandler node || hasJSXFocusHandler node)
  ∧ (∀ node : Vue.VElement,
      hasVueEventHandler node
      = hasVueClickHandler node || hasVueKeyboardHandler node
        || hasVueMouseHandler node || hasVueFocusHandler node).
Proof. split; [apply hasJSXEventHandler_split | apply hasVueEventHandler_split]. Qed.

End EventUtilsFacts.

(** Decide a closed membership question by evaluation. *)
Ltac decide_closed := apply (bool_decide_unpack _); vm_compute; exact I.

(** The shapes of a JSX attribute [a], read through [attr_value]; [H] is
    a hypothesis on its static string value. *)
Ltac jsx_attr_cases a H :=
  destruct a as [? [[[]|[[]| |]|]|]|?];
  cbn [attr_value Jsx.JSXAttr_AttrLike fmap option_fmap option_map
       Jsx.value_node] in H |- *;
  try discriminate H.

(** Split [x ∈ s] for a literal table [s] into its members. *)
Ltac members H :=
  repeat first [ apply elem_of_list_to_set in H
               | apply elem_of_cons in H as [-> | H]
               | apply elem_of_nil in H; destruct H ].

Section HandlerTables.
Import Jsx Vue EventUtils SpecTerms.

Lemma JSX_HANDLERS_SET_disjoint (c1 c2 : HandlerCategory) (x : string) :
  c1 ≠ c2 → x ∈ JSX_HANDLERS_SET c1 → x ∉ JSX_HANDLERS_SET c2.
Proof.
  intros Hne Hx.
  destruct c1, c2; try congruence; clear Hne;
    unfold JSX_HANDLERS_SET, JSX_CLICK_HANDLERS_SET, JSX_KEYBOARD_HANDLERS_SET,
      JSX_MOUSE_HANDLERS_SET, JSX_FOCUS_HANDLERS_SET, new_Set in Hx;
    members Hx; decide_closed.
Qed.

Lemma VUE_HANDLERS_disjoint (c1 c2 : HandlerCategory) (x : string) :
  c1 ≠ c2 → x ∈ VUE_HANDLERS c1 → x ∉ VUE_HANDLERS c2.
Proof.
  intros Hne Hx.
  destruct c1, c2; try congruence; clear Hne;
    unfold VUE_HANDLERS, VUE_CLICK_HANDLERS, VUE_KEYBOARD_HANDLERS,
      VUE_MOUSE_HANDLERS, VUE_FOCUS_HANDLERS in Hx;
    members Hx; decide_closed.
Qed.

Lemma VUE_EVENT_NAMES_disjoint (c1 c2 : HandlerCategory) (x : string) :
  c1 ≠ c2 → x ∈ VUE_EVENT_NAMES c1 → x ∉ VUE_EVENT_NAMES c2.
Proof.
  intros Hne Hx.
  destruct c1, c2; try congruence; clear Hne;
    unfold VUE_EVENT_NAMES, VUE_CLICK_EVENT_NAMES, VUE_KEYBOARD_EVENT_NAMES,
      VUE_MOUSE_EVENT_NAMES, VUE_FOCUS_EVENT_NAMES, new_Set in Hx;
    members Hx; decide_closed.
Qed.

(** C3.  Within each dialect the four category tables are pairwise
    disjoint: a name of one category's JSX handler set, Vue handler list
    or Vue event-name set is in no other category's. *)
Theorem handler_categories_disjoint (c1 c2 : HandlerCategory) (x : string) :
  c1 ≠ c2 →
  (x ∈ JSX_HANDLERS_SET c1 → x ∉ JSX_HANDLERS_SET c2)
  ∧ (x ∈ VUE_HANDLERS c1 → x ∉ VUE_HANDLERS c2)
  ∧ (x ∈ VUE_EVENT_NAMES c1 → x ∉ VUE_EVENT_NAMES c2).
Proof.
  intros Hne. split; [|split].
  - by apply JSX_HANDLERS_SET_disjoint.
  - by apply VUE_HANDLERS_disjoint.
  - by apply VUE_EVENT_NAMES_disjoint.
Qed.

Lemma handler_categories_disjoint_witness :
  Click ≠ Keyboard
  ∧ ("onClick" ∈ JSX_HANDLERS_SET Click ∧ "onClick" ∉ JSX_HANDLERS_SET Keyboard)
  ∧ ("@click" ∈ VUE_HANDLERS Click ∧ "@click" ∉ VUE_HANDLERS Keyboard)
  ∧ ("click" ∈ VUE_EVENT_NAMES Click ∧ "click" ∉ VUE_EVENT_NAMES Keyboard).
Proof.
  assert (Hne : Click ≠ Keyboard) by discriminate.
  split; [exact Hne|]. split; [|split].
  - split; [decide_closed|].
    destruct (handler_categories_disjoint Click Keyboard "onClick" Hne)
      as (Hjsx & _ & _).
    apply Hjsx. decide_closed.
  - split; [decide_closed|].
    destruct (handler_categories_disjoint Click Keyboard "@click" Hne)
      as (_ & Hvue & _).
    apply Hvue. decide_closed.
  - split; [decide_closed|].
    destruct (handler_categories_disjoint Click Keyboard "click" Hne)
      as (_ & _ & Hevent).
    apply Hevent. decide_closed.
Defined.

Lemma jsx_handler_in_attribute (s : gset string) (n : string)
                               (v : option JSXAttributeValue) :
  jsx_handler_in s (attribute n v)
  = negb (String.eqb n "") && bool_decide (n ∈ s).
Proof. reflexivity. Qed.

Lemma hasJSXHandler_some (c : HandlerCategory) (node : Jsx.JSXOpeningElement) :
  hasJSXHandler c node
  = some (jsx_handler_in (JSX_HANDLERS_SET c)) (Jsx.attributes node).
Proof. by destruct c. Qed.

(** The claim C2 fails on the two names the mouse table lists without a
    capture variant: [onMouseEnter] is a mouse handler and
    [onMouseEnterCapture] is not. *)
Lemma capture_variant_counterexample :
  let fn := Some (JSXExpressionContainer (Identifier "fn")) in
  "onMouseEnter" ∈ JSX_HANDLERS_SET Mouse
  ∧ endsWith "onMouseEnter" "Capture" = false
  ∧ (("onMouseEnter" ++ "Capture") ∉ JSX_HANDLERS_SET Mouse)
  ∧ hasJSXMouseHandler (Jsx.element "div" [attribute "onMouseEnter" fn]) = true
  ∧ hasJSXMouseHandler
      (Jsx.element "div" [attribute ("onMouseEnter" ++ "Capture") fn]) = false.
Proof.
  simpl. split; [decide_closed|]. split; [by vm_compute|].
  split; [decide_closed|]. split; by vm_compute.
Qed.

(** C2, amended.  For every base name of a JSX category table, that is
    a name that does not itself end in [Capture], other than
    [onMouseEnter] and [onMouseLeave], the name with the suffix [Capture]
    is in the same table, and every category query answers the same on
    an element whether it carries the name or, in its place, the capture
    variant.  For [onMouseEnter] and [onMouseLeave], which are mouse
    handlers, the name with the suffix is in no category's table and not
    in the table of all handlers: every category query and the query for
    any handler answer as if an attribute of that name were not there. *)
Theorem capture_variant_same_category :
  (∀ (c0 c : HandlerCategory) (n : string) (tag : Jsx.JSXTagName)
     (before after : list JSXAttr) (value : option JSXAttributeValue),
      n ∈ JSX_HANDLERS_SET c0 →
      endsWith n "Capture" = false →
      n ≠ "onMouseEnter" → n ≠ "onMouseLeave" →
      (n ++ "Capture") ∈ JSX_HANDLERS_SET c0
      ∧ hasJSXHandler c
          {| Jsx.name := tag;
             attributes := Some (before ++ attribute n value :: after)%list |}
        = hasJSXHandler c
            {| Jsx.name := tag;
               attributes :=
                 Some (before ++ attribute (n ++ "Capture") value
                              :: after)%list |})
  ∧ (∀ (c : HandlerCategory) (n : string) (tag : Jsx.JSXTagName)
       (before after : list JSXAttr) (value : option JSXAttributeValue),
      n ∈ ["onMouseEnter"; "onMouseLeave"] →
      n ∈ JSX_HANDLERS_SET Mouse
      ∧ ((n ++ "Capture") ∉ JSX_HANDLERS_SET c)
      ∧ ((n ++ "Capture") ∉ JSX_ALL_HANDLERS_SET)
      ∧ hasJSXHandler c
          {| Jsx.name := tag;
             attributes :=
               Some (before ++ attribute (n ++ "Capture") value
                            :: after)%list |}
        = hasJSXHandler c
            {| Jsx.name := tag; attributes := Some (before ++ after)%list |}
      ∧ hasJSXEventHandler
          {| Jsx.name := tag;
             attributes :=
               Some (before ++ attribute (n ++ "Capture") value
                            :: after)%list |}
        = hasJSXEventHandler
            {| Jsx.name := tag; attributes := Some (before ++ after)%list |}).
Proof.
  split.
  - intros c0 c n tag before after value Hin Hbase Henter Hleave.
    assert (Hkey :
      (n ++ "Capture") ∈ JSX_HANDLERS_SET c0
      ∧ ∀ c', negb (String.eqb n "") && bool_decide (n ∈ JSX_HANDLERS_SET c')
              = negb (String.eqb (n ++ "Capture") "")
                && bool_decide ((n ++ "Capture") ∈ JSX_HANDLERS_SET c')).
    { destruct c0;
        unfold JSX_HANDLERS_SET at 1, JSX_CLICK_HANDLERS_SET,
          JSX_KEYBOARD_HANDLERS_SET, JSX_MOUSE_HANDLERS_SET,
          JSX_FOCUS_HANDLERS_SET, new_Set in Hin;
        members Hin; try discriminate Hbase; try (by destruct Henter);
        try (by destruct Hleave);
        (split; [decide_closed | intros []; vm_compute; reflexivity]). }
    destruct Hkey as [Hcapture Hsame]. split; [exact Hcapture|].
    rewrite !hasJSXHandler_some. cbn [Jsx.attributes some].
    rewrite !existsb_app. cbn [existsb]. rewrite !jsx_handler_in_attribute.
    by rewrite Hsame.
  - intros c n tag before after value Hin.
    assert (Hnone : ∀ c', jsx_handler_in (JSX_HANDLERS_SET c')
                            (attribute (n ++ "Capture") value) = false).
    { intros c'. rewrite jsx_handler_in_attribute.
      members Hin; destruct c'; vm_compute; reflexivity. }
    assert (Hcategory : ∀ c',
      hasJSXHandler c'
        {| Jsx.name := tag;
           attributes :=
             Some (before ++ attribute (n ++ "Capture") value :: after)%list |}
      = hasJSXHandler c'
          {| Jsx.name := tag; attributes := Some (before ++ after)%list |}).
    { intros c'. rewrite !hasJSXHandler_some. cbn [Jsx.attributes some].
      rewrite !existsb_app. cbn [existsb]. by rewrite Hnone. }
    split; [members Hin; decide_closed|].
    split; [members Hin; destruct c; decide_closed|].
    split; [members Hin; decide_closed|].
    split; [apply Hcategory|].
    rewrite !hasJSXEventHandler_split.
    pose proof (Hcategory Click) as Hclick.
    pose proof (Hcategory Keyboard) as Hkeyboard.
    pose proof (Hcategory Mouse) as Hmouse.
    pose proof (Hcategory Focus) as Hfocus.
    cbn [hasJSXHandler] in Hclick, Hkeyboard, Hmouse, Hfocus.
    by rewrite Hclick, Hkeyboard, Hmouse, Hfocus.
Qed.

Lemma capture_variant_same_category_witness :
  let fn := Some (JSXExpressionContainer (Identifier "fn")) in
  ("onKeyDownCapture" ∈ JSX_HANDLERS_SET Keyboard
   ∧ hasJSXHandler Keyboard
       (Jsx.element "div" [attribute "tabIndex" None; attribute "onKeyDown" fn])
     = hasJSXHandler Keyboard
         (Jsx.element "div"
            [attribute "tabIndex" None; attribute "onKeyDownCapture" fn]))
  ∧ ("onMouseLeave" ∈ JSX_HANDLERS_SET Mouse
     ∧ ("onMouseLeaveCapture" ∉ JSX_HANDLERS_SET Mouse)
     ∧ ("onMouseLeaveCapture" ∉ JSX_ALL_HANDLERS_SET)
     ∧ hasJSXHandler Mouse
         (Jsx.element "div"
            [attribute "onMouseLeaveCapture" fn; attribute "onClick" fn])
       = hasJSXHandler Mouse (Jsx.element "div" [attribute "onClick" fn])
     ∧ hasJSXEventHandler
         (Jsx.element "div"
            [attribute "onMouseLeaveCapture" fn; attribute "onClick" fn])
       = hasJSXEventHandler (Jsx.element "div" [attribute "onClick" fn])).
Proof.
  intros fn.
  destruct capture_variant_same_category as [Hbase Hnone].
  split.
  - apply (Hbase Keyboard Keyboard "onKeyDown"
             (JSXIdentifier "div") [attribute "tabIndex" None] [] fn).
    + decide_closed.
    + vm_compute; reflexivity.
    + discriminate.
    + discriminate.
  - apply (Hnone Mouse "onMouseLeave" (JSXIdentifier "div") []
             [attribute "onClick" fn] fn).
    decide_closed.
Defined.

End HandlerTables.

(** ** The component-role resolver *)

Section ResolverFacts.
Import Jsx ComponentMapping.

Lemma find_map_app_None {A B : Type} (f : A → option B) (l1 l2 : list A) :
  (∀ x, x ∈ l1 → f x = None) →
  find_map f (l1 ++ l2)%list = find_map f l2.
Proof.
  induction l1 as [|x l1 IH]; intros Hnone; [reflexivity|].
  simpl. rewrite (Hnone x) by apply list_elem_of_here.
  apply IH. intros y Hy. apply Hnone. by apply list_elem_of_further.
Qed.

Lemma find_map_None {A B : Type} (f : A → option B) (l : list A) :
  (∀ x, x ∈ l → f x = None) → find_map f l = None.
Proof.
  intros Hnone. rewrite <- (app_nil_r l).
  by rewrite find_map_app_None.
Qed.

Lemma polymorphicTarget_other (NATIVE_TAGS : gset string) (mapping : Mapping)
                              (props : gset string) (attr : JSXAttr) :
  has props (attr_name_name attr) = false →
  polymorphicTarget NATIVE_TAGS mapping props attr = None.
Proof.
  intros Hno. unfold polymorphicTarget. rewrite Hno.
  by rewrite andb_false_r.
Qed.

(** C4.  Under the mapping of [Button] to [button], with [a] a native
    tag and [Button] not one: [<Button as="a">] resolves to [a], whatever
    else the element carries that is not a polymorphic prop ahead of
    [as]; and a [<Button>] with no polymorphic prop resolves to
    [button]. *)
Theorem polymorphic_prop_overrides_mapping
    (NATIVE_TAGS : gset string) (before after others : list JSXAttr) :
  "a" ∈ NATIVE_TAGS →
  "Button" ∉ NATIVE_TAGS →
  (∀ attr, attr ∈ before →
           has DEFAULT_POLYMORPHIC_PROPS (attr_name_name attr) = false) →
  (∀ attr, attr ∈ others →
           has DEFAULT_POLYMORPHIC_PROPS (attr_name_name attr) = false) →
  resolveNativeTag NATIVE_TAGS
    (Jsx.element "Button"
       (before ++ attribute "as" (Some (JSXLiteral (JsString "a"))) :: after))
    button_mapping = Some "a"
  ∧ resolveNativeTag NATIVE_TAGS (Jsx.element "Button" others) button_mapping
    = Some "button".
Proof.
  intros Ha HButton Hbefore Hothers.
  unfold resolveNativeTag. cbn [Jsx.name Jsx.element Jsx.attributes].
  rewrite (bool_decide_eq_false_2 _ HButton).
  replace (components button_mapping !! "Button")
    with (Some {| nativeTag := "button"; polymorphicPropNames := None |})
    by (symmetry; apply lookup_singleton_eq).
  cbn [mbind option_bind polymorphicPropNames from_option fmap option_fmap
       option_map nativeTag defaultPolymorphicPropNames button_mapping].
  unfold id.
  split.
  - rewrite find_map_app_None
      by (intros attr Hattr; apply polymorphicTarget_other; auto).
    cbn [find_map]. unfold polymorphicTarget at 1.
    replace (negb (is_spread (attribute "as" (Some (JSXLiteral (JsString "a")))))
             && has DEFAULT_POLYMORPHIC_PROPS
                  (attr_name_name
                     (attribute "as" (Some (JSXLiteral (JsString "a"))))))
      with true by (vm_compute; reflexivity).
    cbn [getStaticStringValue attr_value JSXAttr_AttrLike attribute fmap
         option_fmap option_map value_node].
    by rewrite (bool_decide_eq_true_2 _ Ha).
  - rewrite find_map_None; [reflexivity|].
    intros attr Hattr. apply polymorphicTarget_other; auto.
Qed.

Lemma polymorphic_prop_overrides_mapping_witness :
  resolveNativeTag EXAMPLE_NATIVE_TAGS
    (Jsx.element "Button" [attribute "as" (Some (JSXLiteral (JsString "a")))])
    button_mapping = Some "a"
  ∧ resolveNativeTag EXAMPLE_NATIVE_TAGS (Jsx.element "Button" [])
      button_mapping
    = Some "button".
Proof.
  apply (polymorphic_prop_overrides_mapping EXAMPLE_NATIVE_TAGS [] [] []).
  - decide_closed.
  - decide_closed.
  - intros attr Hattr. by apply elem_of_nil in Hattr.
  - intros attr Hattr. by apply elem_of_nil in Hattr.
Defined.

End ResolverFacts.

(** ** Attribute lookup *)

Section LookupFacts.
Import Jsx Vue JsxAstUtils VueAstUtils.




Lemma find_skip {A : Type} (p : A → bool) (l1 l2 : list A) (x : A) :
  p x = false → List.find p (l1 ++ x :: l2)%list = List.find p (l1 ++ l2)%list.
Proof.
  intros Hx. induction l1 as [|y l1 IH]; simpl; [by rewrite Hx|].
  by rewrite IH.
Qed.

Lemma existsb_skip {A : Type} (p : A → bool) (l1 l2 : list A) (x : A) :
  p x = false → existsb p (l1 ++ x :: l2)%list = existsb p (l1 ++ l2)%list.
Proof. intros Hx. rewrite !existsb_app. simpl. by rewrite Hx. Qed.

Lemma has_nonempty (s : gset string) (x : string) :
  "" ∉ s → has s (JsString x) = true → truthy (JsString x) = true.
Proof.
  intros Hempty Hx. apply has_true in Hx as (y & [= <-] & Hy).
  simpl. destruct (String.eqb_spec x ""); [congruence | reflexivity].
Qed.

End LookupFacts.

(** ** no-noninteractive-element-to-interactive-role *)

Section InteractiveRoleFacts.
Import Jsx Vue JsxAstUtils VueAstUtils SpecTerms.
Import NoNoninteractiveElementToInteractiveRole.

Lemma jsx_role_static (roleAttr : JSXAttr) (s : string) :
  jsx_static_string roleAttr = Some s →
  jsx_role roleAttr = Some (toLowerCase s).
Proof.
  intros Hstatic. unfold jsx_static_string in Hstatic. unfold jsx_role.
  jsx_attr_cases roleAttr Hstatic; by injection Hstatic as ->.
Qed.

Lemma hasVueKeyboardHandler_directive (node : Vue.VElement) :
  hasVueKeyboardHandler node
  = some vue_keyboard_directive (startTag_attributes node).
Proof.
  unfold hasVueKeyboardHandler.
  destruct (startTag_attributes node) as [attrs|]; [|reflexivity].
  simpl. apply existsb_pointwise. intros [k v|d [[a|]|] v]; simpl;
    try reflexivity.
  - destruct (String.eqb d "on"), (String.eqb a "keydown"),
      (String.eqb a "keyup"), (String.eqb a "keypress"); reflexivity.
  - by rewrite andb_false_r.
  - by rewrite andb_false_r.
Qed.

Lemma NON_INTERACTIVE_ELEMENTS_nonempty : "" ∉ NON_INTERACTIVE_ELEMENTS.
Proof. decide_closed. Qed.

Lemma INTERACTIVE_ROLES_nonempty : "" ∉ INTERACTIVE_ROLES.
Proof. decide_closed. Qed.

(** The claim C5 fails on a capture-phase keyboard handler: the element
    has a tabIndex and, by the classifier, a keyboard handler, and the
    rule still reports it. *)
Lemma keyboard_capture_handler_counterexample :
  let resolve :=
    ComponentMapping.getElementRoleFromJSX
      ComponentMapping.EXAMPLE_NATIVE_TAGS ComponentMapping.no_mapping in
  let div :=
    Jsx.element "div"
      [attribute "role" (str "button");
       attribute "tabIndex" (braces (Literal (JsNumber 0)));
       attribute "onKeyDownCapture" fn] in
  resolve div = Some "div"
  ∧ "div" ∈ NON_INTERACTIVE_ELEMENTS
  ∧ (jsx_static_string <$> getJSXAttribute div "role") = Some (Some "button")
  ∧ "button" ∈ INTERACTIVE_ROLES
  ∧ hasJSXAttribute div "tabIndex" = true
  ∧ EventUtils.hasJSXKeyboardHandler div = true
  ∧ JSXOpeningElement resolve div
    = [noNoninteractiveToInteractive "div" "button"].
Proof.
  simpl. split; [by vm_compute|]. split; [decide_closed|].
  split; [by vm_compute|]. split; [decide_closed|].
  split; [by vm_compute|]. split; by vm_compute.
Qed.

(** C5, amended.  On an element whose resolved tag is non-interactive
    and whose role attribute is a static string naming an interactive
    role, the rule reports one violation, with the tag and the
    lower-cased role, unless the element has a tabIndex or tabindex
    attribute together with an onKeyDown, onKeyUp or onKeyPress
    attribute; capture-phase handlers are not counted.  On a template
    element: unless it has a tabindex attribute together with a v-on
    directive for keydown, keyup or keypress. *)
Theorem interactive_role_needs_tabindex_and_key_handler
    (getElementRoleFromJSX : Jsx.JSXOpeningElement → option string) :
  (∀ (node : Jsx.JSXOpeningElement) (tagName : string)
     (roleAttr : JSXAttr) (s : string),
      getElementRoleFromJSX node = Some tagName →
      tagName ∈ NON_INTERACTIVE_ELEMENTS →
      getJSXAttribute node "role" = Some roleAttr →
      jsx_static_string roleAttr = Some s →
      toLowerCase s ∈ INTERACTIVE_ROLES →
      JSXOpeningElement getElementRoleFromJSX node
      = if (hasJSXAttribute node "tabIndex" || hasJSXAttribute node "tabindex")
           && (hasJSXAttribute node "onKeyDown"
               || hasJSXAttribute node "onKeyUp"
               || hasJSXAttribute node "onKeyPress")
        then []
        else [noNoninteractiveToInteractive tagName (toLowerCase s)])
  ∧ (∀ (node : Vue.VElement) (roleAttr : VAttr) (s : string),
      toLowerCase (Vue.name node) ∈ NON_INTERACTIVE_ELEMENTS →
      getVueAttribute node "role" = Some roleAttr →
      vue_static_string roleAttr = Some s →
      toLowerCase s ∈ INTERACTIVE_ROLES →
      VElement node
      = if hasVueAttribute node "tabindex"
           && some vue_keyboard_directive (startTag_attributes node)
        then []
        else [noNoninteractiveToInteractive
                (toLowerCase (Vue.name node)) (toLowerCase s)]).
Proof.
  split.
  - intros node tagName roleAttr s Hres Htag Hattr Hstatic Hrole.
    unfold JSXOpeningElement. rewrite Hres.
    assert (Hhas : has NON_INTERACTIVE_ELEMENTS (JsString tagName) = true)
      by (by apply bool_decide_eq_true).
    rewrite Hhas, (has_nonempty _ _ NON_INTERACTIVE_ELEMENTS_nonempty Hhas).
    cbn [negb orb]. rewrite Hattr, (jsx_role_static _ _ Hstatic).
    assert (Hhas' : has INTERACTIVE_ROLES (JsString (toLowerCase s)) = true)
      by (by apply bool_decide_eq_true).
    rewrite Hhas', (has_nonempty _ _ INTERACTIVE_ROLES_nonempty Hhas').
    cbn [negb orb]. unfold hasJSXKeyboardHandler, JSX_KEYBOARD_HANDLERS.
    cbn [existsb].
    destruct (hasJSXAttribute node "tabIndex"),
      (hasJSXAttribute node "tabindex"), (hasJSXAttribute node "onKeyDown"),
      (hasJSXAttribute node "onKeyUp"), (hasJSXAttribute node "onKeyPress");
      reflexivity.
  - intros node roleAttr s Htag Hattr Hstatic Hrole.
    unfold VElement.
    assert (Hhas : has NON_INTERACTIVE_ELEMENTS
                     (JsString (toLowerCase (Vue.name node))) = true)
      by (by apply bool_decide_eq_true).
    rewrite Hhas, Hattr. cbn [negb].
    destruct roleAttr as [k [v|]|]; try discriminate Hstatic.
    injection Hstatic as ->.
    cbn [attr_value_value mbind option_bind attr_value VAttr_AttrLike fmap
         option_fmap option_map value_value].
    assert (Hhas' : has INTERACTIVE_ROLES (JsString (toLowerCase s)) = true)
      by (by apply bool_decide_eq_true).
    rewrite Hhas', (has_nonempty _ _ INTERACTIVE_ROLES_nonempty Hhas').
    cbn [negb orb]. rewrite hasVueKeyboardHandler_directive.
    destruct (hasVueAttribute node "tabindex"),
      (some vue_keyboard_directive (startTag_attributes node)); reflexivity.
Qed.

Lemma interactive_role_needs_tabindex_and_key_handler_witness :
  let resolve :=
    ComponentMapping.getElementRoleFromJSX
      ComponentMapping.EXAMPLE_NATIVE_TAGS ComponentMapping.no_mapping in
  let role := attribute "role" (str "button") in
  let tabIndex := attribute "tabIndex" (braces (Literal (JsNumber 0))) in
  JSXOpeningElement resolve
    (Jsx.element "div" [role; tabIndex; attribute "onKeyDown" fn]) = []
  ∧ JSXOpeningElement resolve (Jsx.element "div" [role])
    = [noNoninteractiveToInteractive "div" "button"]
  ∧ VElement
      (Vue.element "div"
         [VAttribute "role" (Some "button"); VAttribute "tabindex" (Some "0");
          VDirective "on" (Some (ArgIdentifier "keydown"))
            (Some (Identifier "fn"))]) = []
  ∧ VElement (Vue.element "div" [VAttribute "role" (Some "button")])
    = [noNoninteractiveToInteractive "div" "button"].
Proof.
  intros resolve role tabIndex.
  destruct (interactive_role_needs_tabindex_and_key_handler resolve)
    as [Hjsx Hvue].
  split; [|split; [|split]].
  - etrans;
      [ apply (Hjsx (Jsx.element "div" [role; tabIndex; attribute "onKeyDown" fn])
                 "div" role "button");
        first [ decide_closed | vm_compute; reflexivity ]
      | vm_compute; reflexivity ].
  - etrans;
      [ apply (Hjsx (Jsx.element "div" [role]) "div" role "button");
        first [ decide_closed | vm_compute; reflexivity ]
      | vm_compute; reflexivity ].
  - etrans;
      [ apply (Hvue (Vue.element "div" _) (VAttribute "role" (Some "button"))
                 "button");
        first [ decide_closed | vm_compute; reflexivity ]
      | vm_compute; reflexivity ].
  - etrans;
      [ apply (Hvue (Vue.element "div" _) (VAttribute "role" (Some "button"))
                 "button");
        first [ decide_closed | vm_compute; reflexivity ]
      | vm_compute; reflexivity ].
Defined.

End InteractiveRoleFacts.

(** ** Spreads and the form-label rule *)

Section SpreadFacts.
Import Jsx Vue JsxAstUtils VueAstUtils SpecTerms.
Import FormLabel.

Lemma hasJSXAttribute_skip_spread
    (tag : JSXTagName) (before after : list JSXAttr)
    (argument : Expression) (n : string) :
  hasJSXAttribute
    {| Jsx.name := tag;
       attributes := Some (before ++ JSXSpreadAttribute argument :: after)%list |}
    n
  = hasJSXAttribute
      {| Jsx.name := tag; attributes := Some (before ++ after)%list |} n.
Proof. unfold hasJSXAttribute. simpl. by apply existsb_skip. Qed.

Lemma FormLabel_VElement_skip_spread
    (tag : string) (before after : list VAttr) (value : option Expression) :
  VElement
    {| Vue.name := tag;
       startTag_attributes :=
         Some (before ++ VDirective "bind" None value :: after)%list |}
  = VElement
      {| Vue.name := tag; startTag_attributes := Some (before ++ after)%list |}.
Proof.
  unfold VElement, hasVueAttribute, getVueAttribute. simpl.
  rewrite !(existsb_skip _ before after (VDirective "bind" None value)) by done.
  by rewrite (find_skip _ before after (VDirective "bind" None value)).
Qed.

(** C6.  A spread never counts as attribute presence.  Removing a
    spread from a JSX element changes no [hasJSXAttribute] answer, and
    [<input {...props} />] has no aria-label; removing a [v-bind]
    spread from a template element changes nothing the form-label rule
    reports, and [<input v-bind="attrs">] is reported as missing a
    label. *)
Theorem spread_is_not_attribute_presence :
  (∀ (tag : JSXTagName) (before after : list JSXAttr)
     (argument : Expression) (n : string),
      hasJSXAttribute
        {| Jsx.name := tag;
           attributes :=
             Some (before ++ JSXSpreadAttribute argument :: after)%list |} n
      = hasJSXAttribute
          {| Jsx.name := tag; attributes := Some (before ++ after)%list |} n)
  ∧ hasJSXAttribute
      (Jsx.element "input" [JSXSpreadAttribute (Identifier "props")])
      "aria-label" = false
  ∧ (∀ (tag : string) (before after : list VAttr) (value : option Expression),
      VElement
        {| Vue.name := tag;
           startTag_attributes :=
             Some (before ++ VDirective "bind" None value :: after)%list |}
      = VElement
          {| Vue.name := tag;
             startTag_attributes := Some (before ++ after)%list |})
  ∧ VElement
      (Vue.element "input" [VDirective "bind" None (Some (Identifier "attrs"))])
    = [missingLabel].
Proof.
  split; [apply hasJSXAttribute_skip_spread|].
  split; [reflexivity|].
  split; [apply FormLabel_VElement_skip_spread | reflexivity].
Qed.

End SpreadFacts.

(** ** scope *)

Section ScopeFacts.
Import Jsx Vue JsxAstUtils VueAstUtils SpecTerms.
Import Scope.





End ScopeFacts.

(** ** anchor-is-valid *)

Section AnchorFacts.
Import Jsx Vue JsxAstUtils VueAstUtils SpecTerms.
Import AnchorIsValid.

Lemma isInvalidHref_true (v : string) :
  v = "" ∨ v = "#" ∨ startsWith (toLowerCase v) "javascript:" = true →
  isInvalidHref v = true.
Proof.
  unfold isInvalidHref. intros [-> | [-> | Hjs]]; try reflexivity.
  rewrite Hjs. by destruct (has INVALID_HREFS (JsString v)).
Qed.

(** The claim C8 fails on a string literal in braces: [<a href={"#"}>]
    has the static string value [#], an invalid href, and the JSX visitor
    reports nothing. *)
Lemma href_in_braces_counterexample :
  let a := Jsx.element "a" [attribute "href" (braces (Literal (JsString "#")))] in
  Jsx.name a = JSXIdentifier "a"
  ∧ (jsx_static_string <$> getJSXAttribute a "href") = Some (Some "#")
  ∧ isInvalidHref "#" = true
  ∧ JSXOpeningElement (λ _ _, false) a = [].
Proof. repeat split. Qed.

(** C8, amended.  An [a] element whose href attribute is a string
    literal written directly as the attribute's value (not in braces)
    that is empty, [#], or begins, lower-cased, with [javascript:] is
    reported as invalidHref, with that value as its href. *)
Theorem invalid_href_is_reported
    (isElementLike : Jsx.JSXOpeningElement → string → bool) (v : string) :
  v = "" ∨ v = "#" ∨ startsWith (toLowerCase v) "javascript:" = true →
  (∀ (node : Jsx.JSXOpeningElement) (hrefAttr : JSXAttr),
      Jsx.name node = JSXIdentifier "a" →
      getJSXAttribute node "href" = Some hrefAttr →
      attr_value hrefAttr = Some (ValLiteral (JsString v)) →
      JSXOpeningElement isElementLike node = [invalidHref v])
  ∧ (∀ (node : Vue.VElement) (hrefAttr : VAttr),
      Vue.name node = "a" →
      getVueAttribute node "href" = Some hrefAttr →
      vue_static_string hrefAttr = Some v →
      VElement node = [invalidHref v]).
Proof.
  intros Hbad. apply isInvalidHref_true in Hbad. split.
  - intros node hrefAttr Hname Hattr Hvalue.
    unfold JSXOpeningElement. rewrite Hname, Hattr, Hvalue, Hbad.
    reflexivity.
  - intros node hrefAttr Hname Hattr Hstatic.
    unfold VElement. rewrite Hname, Hattr.
    destruct hrefAttr as [k [s|]|]; try discriminate Hstatic.
    injection Hstatic as ->.
    cbn [attr_value_value mbind option_bind attr_value VAttr_AttrLike fmap
         option_fmap option_map value_value].
    by rewrite Hbad.
Qed.

Lemma invalid_href_is_reported_witness :
  JSXOpeningElement (λ _ _, false)
    (Jsx.element "a" [attribute "href" (str "javascript:void(0)")])
  = [invalidHref "javascript:void(0)"]
  ∧ VElement (Vue.element "a" [VAttribute "href" (Some "JavaScript:void(0)")])
    = [invalidHref "JavaScript:void(0)"].
Proof.
  split.
  - refine (proj1 (invalid_href_is_reported (λ _ _, false)
                     "javascript:void(0)" _) _ _ _ _ _);
      [right; right; vm_compute; reflexivity | reflexivity..].
  - refine (proj2 (invalid_href_is_reported (λ _ _, false)
                     "JavaScript:void(0)" _) _ _ _ _ _);
      [right; right; vm_compute; reflexivity | reflexivity..].
Defined.

End AnchorFacts.

(** ** Values that are not static strings *)

Section UnresolvedValueFacts.
Import Jsx Vue JsxAstUtils VueAstUtils SpecTerms.






End UnresolvedValueFacts.

(** ** form-label *)

Section FormLabelFacts.
Import Jsx Vue JsxAstUtils VueAstUtils SpecTerms.
Import FormLabel.

(** The visitor's own search for the id attribute finds what the
    attribute lookup finds: a spread has no name to compare. *)
Lemma find_id_getJSXAttribute (node : Jsx.JSXOpeningElement) :
  find (λ attr, strict_eq_string (attr_name_name attr) "id")
       (Jsx.attributes node)
  = getJSXAttribute node "id".
Proof.
  unfold getJSXAttribute. destruct (Jsx.attributes node) as [l|]; [|reflexivity].
  simpl. induction l as [|[[nm|ns nm] v|arg] l IH]; simpl; try done.
  unfold JsxAstUtils.named. simpl. by rewrite IH.
Qed.

Lemma jsx_truthy_id (idAttr : option JSXAttr) :
  truthy (attr_value_value idAttr) = jsx_bare_truthy_literal idAttr.
Proof. by destruct idAttr as [[nm [[v|e|]|]|arg]|]. Qed.

Lemma vue_truthy_id (idAttr : option VAttr) :
  truthy (attr_value_value idAttr) = vue_truthy_literal idAttr.
Proof. by destruct idAttr as [[k [s|]|d arg [e|]]|]. Qed.

(** C10.  The visitor reports a control although it carries an id with
    the literal value [email], against its own comments (an id, if
    present, is taken as a label that may be in another component; a
    report only when there is no labelling mechanism at all): it reads
    the [value] field of the value of the first id attribute, which an id
    written in braces does not have, and which is empty when an empty id
    comes first.  Neither input has an aria-label or aria-labelledby. *)
Lemma id_attribute_counterexample :
  let twice :=
    Jsx.element "input" [attribute "id" (str ""); attribute "id" (str "email")] in
  let inBraces :=
    Jsx.element "input"
      [attribute "id" (braces (Literal (JsString "email")))] in
  (attribute "id" (str "email") ∈ default [] (Jsx.attributes twice)
   ∧ jsx_static_string (attribute "id" (str "email")) = Some "email"
   ∧ truthy (JsString "email") = true
   ∧ JSXOpeningElement twice = [missingLabel])
  ∧ ((jsx_static_string <$> getJSXAttribute inBraces "id") = Some (Some "email")
     ∧ JSXOpeningElement inBraces = [missingLabel]).
Proof.
  simpl. split; [split; [|by repeat split] | by split].
  apply list_elem_of_further, list_elem_of_here.
Qed.

(** What the visitors compute on a form control, the reports above
    included: on an input, select or textarea element the rule reports
    missingLabel exactly when the element has no aria-label attribute, no
    aria-labelledby attribute, and its first id attribute, if any, has no
    truthy literal written directly as its value. *)
Theorem form_label_reports_unlabelled_control :
  (∀ (node : Jsx.JSXOpeningElement) (n : string),
      Jsx.name node = JSXIdentifier n →
      toLowerCase n ∈ ["input"; "select"; "textarea"] →
      JSXOpeningElement node
      = if hasJSXAttribute node "aria-label"
           || hasJSXAttribute node "aria-labelledby"
           || jsx_bare_truthy_literal (getJSXAttribute node "id")
        then [] else [missingLabel])
  ∧ (∀ (node : Vue.VElement),
      toLowerCase (Vue.name node) ∈ ["input"; "select"; "textarea"] →
      VElement node
      = if hasVueAttribute node "aria-label"
           || hasVueAttribute node "aria-labelledby"
           || vue_truthy_literal (getVueAttribute node "id")
        then [] else [missingLabel]).
Proof.
  assert (Hcontrol : ∀ t, t ∈ ["input"; "select"; "textarea"] →
                          is_form_control t = true).
  { intros t Ht. members Ht; reflexivity. }
  split.
  - intros node n Hname Htag. unfold JSXOpeningElement.
    rewrite Hname, (Hcontrol _ Htag), find_id_getJSXAttribute, jsx_truthy_id.
    by destruct (hasJSXAttribute node "aria-label"),
      (hasJSXAttribute node "aria-labelledby"), (jsx_bare_truthy_literal _).
  - intros node Htag. unfold VElement.
    rewrite (Hcontrol _ Htag), vue_truthy_id.
    by destruct (hasVueAttribute node "aria-label"),
      (hasVueAttribute node "aria-labelledby"), (vue_truthy_literal _).
Qed.

Lemma form_label_reports_unlabelled_control_witness :
  JSXOpeningElement (Jsx.element "input" [attribute "id" (str "email")]) = []
  ∧ JSXOpeningElement (Jsx.element "input" [attribute "id" (str "")])
    = [missingLabel]
  ∧ JSXOpeningElement
      (Jsx.element "input" [attribute "id" (braces (Identifier "id"))])
    = [missingLabel]
  ∧ VElement (Vue.element "select" [VAttribute "id" (Some "country")]) = []
  ∧ VElement
      (Vue.element "textarea"
         [VDirective "bind" (Some (ArgIdentifier "id")) (Some (Identifier "id"))])
    = [missingLabel].
Proof.
  destruct form_label_reports_unlabelled_control as [Hjsx Hvue].
  split; [|split; [|split; [|split]]].
  - etrans; [apply (Hjsx (Jsx.element "input" _) "input");
             [reflexivity | decide_closed] | reflexivity].
  - etrans; [apply (Hjsx (Jsx.element "input" _) "input");
             [reflexivity | decide_closed] | reflexivity].
  - etrans; [apply (Hjsx (Jsx.element "input" _) "input");
             [reflexivity | decide_closed] | reflexivity].
  - etrans; [apply (Hvue (Vue.element "select" _)); decide_closed
            | reflexivity].
  - etrans; [apply (Hvue (Vue.element "textarea" _)); decide_closed
            | reflexivity].
Defined.

End FormLabelFacts.

(** ** Further properties of the event-handler classifier *)

Section ClassifierFacts.
Import Jsx Vue EventUtils SpecTerms Vocabulary.

Lemma existsb_elem_of {A : Type} (p : A → bool) (l : list A) :
  existsb p l = true ↔ ∃ x, x ∈ l ∧ p x = true.
Proof.
  rewrite existsb_exists. split; intros (x & Hx & Hp); exists x; split;
    try done; by apply list_elem_of_In.
Qed.

Lemma existsb_subseteq {A : Type} (p : A → bool) (l1 l2 : list A) :
  l1 ⊆ l2 → existsb p l1 = true → existsb p l2 = true.
Proof.
  intros Hsub. rewrite !existsb_elem_of. intros (x & Hx & Hp).
  exists x. split; [by apply Hsub | done].
Qed.

Lemma JSX_HANDLERS_SET_nonempty (c : HandlerCategory) :
  "" ∉ JSX_HANDLERS_SET c.
Proof. destruct c; decide_closed. Qed.

Lemma jsx_handler_in_true (s : gset string) (attr : JSXAttr) :
  "" ∉ s →
  jsx_handler_in s attr = true ↔ ∃ n, jsx_named n attr ∧ n ∈ s.
Proof.
  intros Hempty. unfold jsx_handler_in, jsx_named.
  destruct attr as [[n|ns n] v|arg]; simpl.
  - rewrite andb_true_iff, bool_decide_eq_true. split.
    + intros [_ Hn]. eauto.
    + intros (n' & (v' & [= -> _]) & Hn). split; [|done].
      destruct (String.eqb_spec n' ""); [congruence | done].
  - split; [discriminate | by intros (n' & (v' & [=]) & _)].
  - split; [discriminate | by intros (n' & (v' & [=]) & _)].
Qed.

Lemma hasJSXHandler_true (c : HandlerCategory) (node : Jsx.JSXOpeningElement) :
  hasJSXHandler c node = true
  ↔ ∃ attrs attr n,
      Jsx.attributes node = Some attrs ∧ attr ∈ attrs
      ∧ jsx_named n attr ∧ n ∈ JSX_HANDLERS_SET c.
Proof.
  rewrite hasJSXHandler_some.
  destruct (Jsx.attributes node) as [attrs|]; simpl.
  - rewrite existsb_elem_of. split.
    + intros (attr & Hattr & Hin).
      apply jsx_handler_in_true in Hin as (n & Hn & Hc);
        [|apply JSX_HANDLERS_SET_nonempty].
      by exists attrs, attr, n.
    + intros (attrs' & attr & n & [= <-] & Hattr & Hn & Hc).
      exists attr. split; [done|].
      apply jsx_handler_in_true; [apply JSX_HANDLERS_SET_nonempty | eauto].
  - split; [discriminate | by intros (? & ? & ? & [=] & _)].
Qed.

(** X1.  A JSX element has a handler of a category exactly when one of
    its attributes has a plain name from that category's table: a spread,
    a namespaced attribute and an element without an attribute list never
    count, and the attribute's value plays no part.  It has any handler
    exactly when it has one of some category. *)
Theorem jsx_handler_is_a_named_attribute
    (c : HandlerCategory) (node : Jsx.JSXOpeningElement) :
  (hasJSXHandler c node = true
   ↔ ∃ attrs attr n,
       Jsx.attributes node = Some attrs ∧ attr ∈ attrs
       ∧ jsx_named n attr ∧ n ∈ JSX_HANDLERS_SET c)
  ∧ (hasJSXEventHandler node = true
     ↔ ∃ attrs attr n c',
         Jsx.attributes node = Some attrs ∧ attr ∈ attrs
         ∧ jsx_named n attr ∧ n ∈ JSX_HANDLERS_SET c').
Proof.
  split; [apply hasJSXHandler_true|].
  rewrite hasJSXEventHandler_split, !orb_true_iff.
  pose proof (hasJSXHandler_true Click node) as Hclick.
  pose proof (hasJSXHandler_true Keyboard node) as Hkey.
  pose proof (hasJSXHandler_true Mouse node) as Hmouse.
  pose proof (hasJSXHandler_true Focus node) as Hfocus.
  simpl in Hclick, Hkey, Hmouse, Hfocus.
  rewrite Hclick, Hkey, Hmouse, Hfocus. split.
  - intros [[[H|H]|H]|H]; destruct H as (attrs & attr & n & H);
      [exists attrs, attr, n, Click | exists attrs, attr, n, Keyboard
      | exists attrs, attr, n, Mouse | exists attrs, attr, n, Focus]; exact H.
  - intros (attrs & attr & n & [] & H); eauto 10.
Qed.

Lemma hasVueHandler_attribute (c : HandlerCategory) (node : Vue.VElement) :
  hasVueHandler c node
  = hasVueEventAttribute node (new_Set (VUE_HANDLERS c)) (VUE_EVENT_NAMES c).
Proof. by destruct c. Qed.

Lemma VUE_HANDLERS_nonempty (c : HandlerCategory) : "" ∉ VUE_HANDLERS c.
Proof. destruct c; decide_closed. Qed.

Lemma VUE_EVENT_NAMES_nonempty (c : HandlerCategory) : "" ∉ VUE_EVENT_NAMES c.
Proof. destruct c; decide_closed. Qed.

Lemma vue_handler_in_true (hs : list string) (es : gset string) (attr : VAttr) :
  "" ∉ hs → "" ∉ es →
  vue_handler_in (new_Set hs) es attr = true
  ↔ (∃ k, vue_plain k attr ∧ k ∈ hs) ∨ (∃ e, vue_on e attr ∧ e ∈ es).
Proof.
  intros Hhs Hes. unfold vue_handler_in, vue_plain, vue_on.
  destruct attr as [k v|d [[a|]|] v];
    cbn [key_name key_name_name key_argument_name directive has
         strict_eq_string truthy andb].
  - destruct (bool_decide (k ∈ new_Set hs)) eqn:Hk.
    + apply bool_decide_eq_true, elem_of_list_to_set in Hk.
      assert (String.eqb k "" = false) as ->
        by (apply String.eqb_neq; by intros ->).
      split; [intros _; left; eauto | done].
    + apply bool_decide_eq_false in Hk. rewrite andb_false_r.
      split; [discriminate|].
      intros [(k' & (v' & [= -> _]) & Hin) | (e & (v' & [=]) & _)].
      destruct Hk. by apply elem_of_list_to_set.
  - destruct (String.eqb_spec d "on") as [->|Hd].
    + rewrite andb_true_iff, bool_decide_eq_true. split.
      * intros [_ Ha]. right. eauto.
      * intros [(k' & (v' & [=]) & _) | (e & (v' & [= -> _]) & Hin)].
        split; [|done]. apply negb_true_iff, String.eqb_neq. by intros ->.
    + split; [discriminate|].
      intros [(k' & (v' & [=]) & _) | (e & (v' & [= -> _ _]) & _)]. done.
  - destruct (String.eqb d "on");
      (split; [discriminate|]);
      intros [(k' & (v' & [=]) & _) | (e & (v' & [=]) & _)].
  - destruct (String.eqb d "on");
      (split; [discriminate|]);
      intros [(k' & (v' & [=]) & _) | (e & (v' & [=]) & _)].
Qed.

Lemma hasVueHandler_true (c : HandlerCategory) (node : Vue.VElement) :
  hasVueHandler c node = true
  ↔ ∃ attrs attr,
      startTag_attributes node = Some attrs ∧ attr ∈ attrs
      ∧ ((∃ k, vue_plain k attr ∧ k ∈ VUE_HANDLERS c)
         ∨ (∃ e, vue_on e attr ∧ e ∈ VUE_EVENT_NAMES c)).
Proof.
  rewrite hasVueHandler_attribute. unfold hasVueEventAttribute.
  destruct (startTag_attributes node) as [attrs|].
  - rewrite existsb_elem_of. split.
    + intros (attr & Hattr & Hin). exists attrs, attr.
      split; [done|]. split; [done|].
      by apply vue_handler_in_true in Hin;
        [|apply VUE_HANDLERS_nonempty|apply VUE_EVENT_NAMES_nonempty].
    + intros (attrs' & attr & [= <-] & Hattr & Hin). exists attr.
      split; [done|].
      by apply vue_handler_in_true;
        [apply VUE_HANDLERS_nonempty|apply VUE_EVENT_NAMES_nonempty|].
  - split; [discriminate | by intros (? & ? & [=] & _)].
Qed.

(** X2.  A template element has a handler of a category exactly when one
    of its attributes is a plain attribute whose key is in the category's
    handler list, or a [v-on] directive whose argument is a plain
    identifier from the category's event names.  A directive with a
    computed argument, or one that is not [v-on], never counts, and
    neither the value nor the modifiers play a part. *)
Theorem vue_handler_is_a_listed_attribute_or_directive
    (c : HandlerCategory) (node : Vue.VElement) :
  hasVueHandler c node = true
  ↔ ∃ attrs attr,
      startTag_attributes node = Some attrs ∧ attr ∈ attrs
      ∧ ((∃ k, vue_plain k attr ∧ k ∈ VUE_HANDLERS c)
         ∨ (∃ e, vue_on e attr ∧ e ∈ VUE_EVENT_NAMES c)).
Proof. apply hasVueHandler_true. Qed.

(** X3.  The answer of a query depends only on which attributes the
    element carries: when every attribute of one element is an attribute
    of another, each handler the first has the other has too, whatever
    the order, the repetitions and the tag. *)
Theorem handlers_grow_with_the_attributes :
  (∀ (c : HandlerCategory) (tag tag' : JSXTagName) (l1 l2 : list JSXAttr),
      l1 ⊆ l2 →
      hasJSXHandler c {| Jsx.name := tag; attributes := Some l1 |} = true →
      hasJSXHandler c {| Jsx.name := tag'; attributes := Some l2 |} = true)
  ∧ (∀ (tag tag' : JSXTagName) (l1 l2 : list JSXAttr),
      l1 ⊆ l2 →
      hasJSXEventHandler {| Jsx.name := tag; attributes := Some l1 |} = true →
      hasJSXEventHandler {| Jsx.name := tag'; attributes := Some l2 |} = true)
  ∧ (∀ (c : HandlerCategory) (tag tag' : string) (l1 l2 : list VAttr),
      l1 ⊆ l2 →
      hasVueHandler c {| Vue.name := tag; startTag_attributes := Some l1 |}
      = true →
      hasVueHandler c {| Vue.name := tag'; startTag_attributes := Some l2 |}
      = true)
  ∧ (∀ (tag tag' : string) (l1 l2 : list VAttr),
      l1 ⊆ l2 →
      hasVueEventHandler {| Vue.name := tag; startTag_attributes := Some l1 |}
      = true →
      hasVueEventHandler {| Vue.name := tag'; startTag_attributes := Some l2 |}
      = true).
Proof.
  split; [|split; [|split]].
  - intros c tag tag' l1 l2 Hsub. rewrite !hasJSXHandler_some.
    by apply existsb_subseteq.
  - intros tag tag' l1 l2 Hsub. by apply existsb_subseteq.
  - intros c tag tag' l1 l2 Hsub. rewrite !hasVueHandler_attribute.
    by apply existsb_subseteq.
  - intros tag tag' l1 l2 Hsub. by apply existsb_subseteq.
Qed.

Lemma handlers_grow_with_the_attributes_witness :
  let onClick := attribute "onClick" fn in
  let id := attribute "id" (str "go") in
  let click := VDirective "on" (Some (ArgIdentifier "click")) None in
  let key := VAttribute "id" (Some "go") in
  hasJSXHandler Click (Jsx.element "span" [id; onClick; id]) = true
  ∧ hasJSXEventHandler (Jsx.element "span" [id; onClick; id]) = true
  ∧ hasVueHandler Click (Vue.element "span" [key; click]) = true
  ∧ hasVueEventHandler (Vue.element "span" [key; click]) = true.
Proof.
  intros onClick id click key.
  destruct handlers_grow_with_the_attributes as (Hj & Hj' & Hv & Hv').
  assert (Hsub : [onClick] ⊆ [id; onClick; id]).
  { intros x Hx. apply list_elem_of_singleton in Hx as ->.
    apply list_elem_of_further, list_elem_of_here. }
  assert (Hsub' : [click] ⊆ [key; click]).
  { intros x Hx. apply list_elem_of_singleton in Hx as ->.
    apply list_elem_of_further, list_elem_of_here. }
  split; [|split; [|split]].
  - apply (Hj Click (JSXIdentifier "div") _ [onClick] _ Hsub). reflexivity.
  - apply (Hj' (JSXIdentifier "div") _ [onClick] _ Hsub). reflexivity.
  - apply (Hv Click "div" _ [click] _ Hsub'). reflexivity.
  - apply (Hv' "div" _ [click] _ Hsub'). reflexivity.
Defined.

Lemma HandlerCategory_eq_or (c1 c2 : HandlerCategory) : c1 = c2 ∨ c1 ≠ c2.
Proof. destruct c1, c2; first [ by left | by right ]. Qed.

(** X4.  One attribute is a handler of at most one category: when two
    category queries both answer true on an element with a single
    attribute, they are the same category. *)
Theorem one_attribute_one_category
    (c1 c2 : HandlerCategory) :
  (∀ (tag : JSXTagName) (attr : JSXAttr),
      hasJSXHandler c1 {| Jsx.name := tag; attributes := Some [attr] |} = true →
      hasJSXHandler c2 {| Jsx.name := tag; attributes := Some [attr] |} = true →
      c1 = c2)
  ∧ (∀ (tag : string) (attr : VAttr),
      hasVueHandler c1 {| Vue.name := tag; startTag_attributes := Some [attr] |}
      = true →
      hasVueHandler c2 {| Vue.name := tag; startTag_attributes := Some [attr] |}
      = true →
      c1 = c2).
Proof.
  destruct (HandlerCategory_eq_or c1 c2) as [Heq|Hne]; [by split|].
  split.
  - intros tag attr H1 H2.
    apply hasJSXHandler_true in H1 as (l1 & a1 & n1 & [= <-] & Ha1 & Hn1 & Hc1).
    apply hasJSXHandler_true in H2 as (l2 & a2 & n2 & [= <-] & Ha2 & Hn2 & Hc2).
    apply list_elem_of_singleton in Ha1 as ->.
    apply list_elem_of_singleton in Ha2 as ->.
    destruct Hn1 as [v1 ->]. destruct Hn2 as [v2 [= -> _]].
    by destruct (JSX_HANDLERS_SET_disjoint c1 c2 _ Hne Hc1).
  - intros tag attr H1 H2.
    apply hasVueHandler_true in H1 as (l1 & a1 & [= <-] & Ha1 & H1).
    apply hasVueHandler_true in H2 as (l2 & a2 & [= <-] & Ha2 & H2).
    apply list_elem_of_singleton in Ha1 as ->.
    apply list_elem_of_singleton in Ha2 as ->.
    destruct H1 as [(k1 & [v1 ->] & Hk1) | (e1 & [v1 ->] & He1)];
      destruct H2 as [(k2 & [v2 [=]] & Hk2) | (e2 & [v2 [=]] & He2)]; subst.
    + by destruct (VUE_HANDLERS_disjoint c1 c2 _ Hne Hk1).
    + by destruct (VUE_EVENT_NAMES_disjoint c1 c2 _ Hne He1).
Qed.

Lemma one_attribute_one_category_witness :
  let onBlur := attribute "onBlur" fn in
  let blur := VDirective "on" (Some (ArgIdentifier "blur")) None in
  hasJSXHandler Focus (Jsx.element "input" [onBlur]) = true
  ∧ hasVueHandler Focus (Vue.element "input" [blur]) = true
  ∧ Focus = Focus.
Proof.
  intros onBlur blur.
  destruct (one_attribute_one_category Focus Focus) as [Hj Hv].
  split; [reflexivity|]. split; [reflexivity|].
  apply (Hj (JSXIdentifier "input") onBlur); reflexivity.
Defined.

(** Try each of the given names as the witness of the goal. *)
Ltac pick_name names :=
  match names with
  | ?n :: ?rest =>
      first [ exists n; repeat split; first [ decide_closed | reflexivity ]
            | pick_name rest ]
  end.

(** X5.  The template handler list of a category holds exactly the
    category's event names, each bare, with the prefix [@] and with the
    prefix [v-on:]. *)
Theorem vue_handlers_are_the_prefixed_event_names
    (c : HandlerCategory) (x : string) :
  x ∈ VUE_HANDLERS c
  ↔ ∃ e, e ∈ VUE_EVENT_NAMES c ∧ x ∈ [e; "@" ++ e; "v-on:" ++ e].
Proof.
  split.
  - intros Hx.
    destruct c;
      unfold VUE_HANDLERS, VUE_CLICK_HANDLERS, VUE_KEYBOARD_HANDLERS,
        VUE_MOUSE_HANDLERS, VUE_FOCUS_HANDLERS in Hx;
      members Hx;
      match goal with
      | |- ∃ e, e ∈ ?events ∧ _ =>
          let names := eval vm_compute in (elements events) in pick_name names
      end.
  - intros (e & He & Hx).
    destruct c;
      unfold VUE_EVENT_NAMES, VUE_CLICK_EVENT_NAMES, VUE_KEYBOARD_EVENT_NAMES,
        VUE_MOUSE_EVENT_NAMES, VUE_FOCUS_EVENT_NAMES, new_Set in He;
      members He; cbn [String.append] in Hx; members Hx; decide_closed.
Qed.

(** X6.  The two dialects classify the same events: the event names of a
    category in the template dialect are exactly the events of the
    category's JSX handler names that are not capture names. *)
Theorem vue_events_are_the_jsx_events (c : HandlerCategory) (e : string) :
  e ∈ VUE_EVENT_NAMES c
  ↔ ∃ n, n ∈ JSX_HANDLERS_SET c ∧ endsWith n "Capture" = false
         ∧ event_of_handler n = e.
Proof.
  split.
  - intros He.
    destruct c;
      unfold VUE_EVENT_NAMES, VUE_CLICK_EVENT_NAMES, VUE_KEYBOARD_EVENT_NAMES,
        VUE_MOUSE_EVENT_NAMES, VUE_FOCUS_EVENT_NAMES, new_Set in He;
      members He;
      match goal with
      | |- ∃ n, n ∈ ?handlers ∧ _ =>
          let names := eval vm_compute in (elements handlers) in
          pick_name names
      end.
  - intros (n & Hn & Hbase & <-).
    destruct c;
      unfold JSX_HANDLERS_SET, JSX_CLICK_HANDLERS_SET,
        JSX_KEYBOARD_HANDLERS_SET, JSX_MOUSE_HANDLERS_SET,
        JSX_FOCUS_HANDLERS_SET, new_Set in Hn;
      members Hn; try discriminate Hbase; decide_closed.
Qed.

End ClassifierFacts.
(** ** Further properties of strings and of anchor-is-valid *)

Section StringFacts.

Lemma ascii_toLowerCase_idemp (c : ascii) :
  ascii_toLowerCase (ascii_toLowerCase c) = ascii_toLowerCase c.
Proof. destruct c as [[] [] [] [] [] [] [] []]; reflexivity. Qed.

Lemma toLowerCase_idemp (s : string) :
  toLowerCase (toLowerCase s) = toLowerCase s.
Proof.
  induction s as [|c s IH]; simpl; [reflexivity|].
  by rewrite ascii_toLowerCase_idemp, IH.
Qed.

Lemma toLowerCase_app (s t : string) :
  toLowerCase (s ++ t) = toLowerCase s ++ toLowerCase t.
Proof. induction s as [|c s IH]; simpl; [reflexivity | by rewrite IH]. Qed.

Lemma toLowerCase_empty (s : string) : toLowerCase s = "" ↔ s = "".
Proof. destruct s; simpl; split; congruence. Qed.

Lemma toLowerCase_hash (s : string) : toLowerCase s = "#" ↔ s = "#".
Proof.
  destruct s as [|c [|c' s]]; simpl; split; try congruence.
  - intros [= Hc]. f_equal.
    destruct c as [[] [] [] [] [] [] [] []]; try reflexivity;
      vm_compute in Hc; discriminate Hc.
  - by intros [= ->].
Qed.

Lemma eqb_iff (a b c d : string) :
  (a = b ↔ c = d) → String.eqb a b = String.eqb c d.
Proof.
  intros Hiff. destruct (String.eqb_spec a b), (String.eqb_spec c d);
    try reflexivity; tauto.
Qed.

Lemma prefix_app (p rest : string) : String.prefix p (p ++ rest) = true.
Proof.
  induction p as [|c p IH]; simpl; [by destruct rest|].
  destruct (ascii_dec c c); [exact IH | congruence].
Qed.

Lemma prefix_toLowerCase (p s : string) :
  String.prefix p (toLowerCase s) = true →
  ∃ scheme rest, s = scheme ++ rest ∧ toLowerCase scheme = p.
Proof.
  revert s. induction p as [|c p IH]; intros s Hp.
  - by exists "", s.
  - destruct s as [|d s]; simpl in Hp; [discriminate|].
    destruct (ascii_dec c (ascii_toLowerCase d)) as [->|]; [|discriminate].
    destruct (IH s Hp) as (scheme & rest & -> & <-).
    by exists (String d scheme), rest.
Qed.

End StringFacts.

Section AnchorFurtherFacts.
Import Jsx Vue JsxAstUtils VueAstUtils SpecTerms Vocabulary.
Import AnchorIsValid.

Lemma isInvalidHref_spec (v : string) :
  isInvalidHref v
  = String.eqb v "" || String.eqb v "#"
    || startsWith (toLowerCase v) "javascript:".
Proof.
  unfold isInvalidHref. cbn [has].
  destruct (String.eqb_spec v "") as [->|Hempty]; [reflexivity|].
  destruct (String.eqb_spec v "#") as [->|Hhash]; [reflexivity|].
  rewrite bool_decide_eq_false_2.
  - by destruct (startsWith _ _).
  - unfold INVALID_HREFS, new_Set. intros Hin. members Hin; congruence.
Qed.

(** X7.  Whether an href is invalid does not depend on letter case, nor
    on what follows the scheme: anything that starts with [javascript:]
    in any case is invalid, and an invalid href is empty, [#], or starts
    with [javascript:] in some case. *)
Theorem isInvalidHref_ignores_case_and_rest :
  (∀ v, isInvalidHref (toLowerCase v) = isInvalidHref v)
  ∧ (∀ scheme rest,
        toLowerCase scheme = "javascript:" →
        isInvalidHref (scheme ++ rest) = true)
  ∧ (∀ v, isInvalidHref v = true →
          v = "" ∨ v = "#"
          ∨ ∃ scheme rest,
              v = scheme ++ rest ∧ toLowerCase scheme = "javascript:").
Proof.
  split; [|split].
  - intros v. rewrite !isInvalidHref_spec, toLowerCase_idemp.
    by rewrite (eqb_iff _ _ _ _ (toLowerCase_empty v)),
      (eqb_iff _ _ _ _ (toLowerCase_hash v)).
  - intros scheme rest Hscheme. rewrite isInvalidHref_spec.
    unfold startsWith. rewrite toLowerCase_app, Hscheme, prefix_app.
    by rewrite orb_true_r.
  - intros v. rewrite isInvalidHref_spec, !orb_true_iff.
    intros [[Hv|Hv]|Hv].
    + left. by apply String.eqb_eq.
    + right; left. by apply String.eqb_eq.
    + right; right. by apply prefix_toLowerCase.
Qed.

Lemma isInvalidHref_ignores_case_and_rest_witness :
  isInvalidHref ("JavaScript:" ++ "void(0)") = true
  ∧ ("#" = "" ∨ "#" = "#"
     ∨ ∃ scheme rest, "#" = scheme ++ rest ∧ toLowerCase scheme = "javascript:").
Proof.
  destruct isInvalidHref_ignores_case_and_rest as (_ & Hscheme & Hinv).
  split.
  - apply Hscheme. reflexivity.
  - apply Hinv. reflexivity.
Defined.

(** X8.  An anchor passes the rule exactly when it carries an href
    attribute that is not an invalid string written directly as its value:
    an href without a value or with an expression passes, a missing href
    never does. *)
Theorem anchor_passes_iff_href_is_not_invalid
    (isElementLike : Jsx.JSXOpeningElement → string → bool) :
  (∀ node : Jsx.JSXOpeningElement,
      Jsx.name node = JSXIdentifier "a" →
      JSXOpeningElement isElementLike node = []
      ↔ ∃ hrefAttr,
          getJSXAttribute node "href" = Some hrefAttr
          ∧ ∀ v, attr_value hrefAttr = Some (ValLiteral (JsString v)) →
                 isInvalidHref v = false)
  ∧ (∀ node : Vue.VElement,
      Vue.name node = "a" →
      VElement node = []
      ↔ ∃ hrefAttr,
          getVueAttribute node "href" = Some hrefAttr
          ∧ ∀ v, vue_static_string hrefAttr = Some v →
                 isInvalidHref v = false).
Proof.
  split.
  - intros node Hname. unfold JSXOpeningElement. rewrite Hname.
    cbn [String.eqb Ascii.eqb Bool.eqb negb andb].
    destruct (getJSXAttribute node "href") as [hrefAttr|].
    + split.
      * intros Hnone. exists hrefAttr. split; [done|]. intros v Hv.
        rewrite Hv in Hnone. by destruct (isInvalidHref v).
      * intros (attr & [= <-] & Hvalid).
        destruct (attr_value hrefAttr) as [[[]| | | |]|]; try reflexivity.
        by rewrite (Hvalid _ eq_refl).
    + split; [by destruct (hasJSXAttribute node "onClick")|].
      by intros (attr & [=] & _).
  - intros node Hname. unfold VElement. rewrite Hname.
    cbn [String.eqb Ascii.eqb Bool.eqb negb].
    destruct (getVueAttribute node "href") as [hrefAttr|].
    + split.
      * intros Hnone. exists hrefAttr. split; [done|]. intros v Hv.
        destruct hrefAttr as [k [s|]|]; try discriminate Hv.
        injection Hv as ->. simpl in Hnone. by destruct (isInvalidHref v).
      * intros (attr & [= <-] & Hvalid).
        destruct hrefAttr as [k [s|]|d arg [e|]]; try reflexivity.
        simpl. by rewrite (Hvalid _ eq_refl).
    + split; [by destruct (some _ _)|]. by intros (attr & [=] & _).
Qed.

Lemma anchor_passes_iff_href_is_not_invalid_witness :
  JSXOpeningElement (λ _ _, false)
    (Jsx.element "a" [attribute "href" (braces (Identifier "url"))]) = []
  ∧ ∃ hrefAttr,
      getVueAttribute (Vue.element "a" [VAttribute "href" (Some "/home")]) "href"
      = Some hrefAttr
      ∧ ∀ v, vue_static_string hrefAttr = Some v → isInvalidHref v = false.
Proof.
  destruct (anchor_passes_iff_href_is_not_invalid (λ _ _, false)) as [Hj Hv].
  split.
  - apply Hj; [reflexivity|].
    exists (attribute "href" (braces (Identifier "url"))).
    split; [reflexivity | discriminate].
  - apply Hv; reflexivity.
Defined.

(** X9.  A component that the mapping resolves to an anchor is checked
    exactly like an anchor with the same attributes; an element that is
    neither written [a] nor resolved to one is never reported, nor is a
    template element whose name is not exactly [a]. *)
Theorem anchor_rule_follows_the_component_mapping
    (isElementLike : Jsx.JSXOpeningElement → string → bool) :
  (∀ (n : string) (attrs : option (list JSXAttr)),
      isElementLike {| Jsx.name := JSXIdentifier n; attributes := attrs |} "a"
      = true →
      JSXOpeningElement isElementLike
        {| Jsx.name := JSXIdentifier n; attributes := attrs |}
      = JSXOpeningElement isElementLike
          {| Jsx.name := JSXIdentifier "a"; attributes := attrs |})
  ∧ (∀ node : Jsx.JSXOpeningElement,
      Jsx.name node ≠ JSXIdentifier "a" →
      isElementLike node "a" = false →
      JSXOpeningElement isElementLike node = [])
  ∧ (∀ node : Vue.VElement, Vue.name node ≠ "a" → VElement node = []).
Proof.
  split; [|split].
  - intros n attrs Hlike. unfold JSXOpeningElement.
    cbn [Jsx.name]. rewrite Hlike. cbn [negb andb String.eqb Ascii.eqb Bool.eqb].
    by rewrite andb_false_r.
  - intros node Hname Hlike. unfold JSXOpeningElement.
    destruct (Jsx.name node) as [n| |]; try reflexivity.
    rewrite Hlike. destruct (String.eqb_spec n "a") as [->|]; [done|reflexivity].
  - intros node Hname. unfold VElement.
    by destruct (String.eqb_spec (Vue.name node) "a").
Qed.

Lemma anchor_rule_follows_the_component_mapping_witness :
  let isLink (node : Jsx.JSXOpeningElement) (tag : string) :=
    match Jsx.name node with
    | JSXIdentifier n => String.eqb n "Link" && String.eqb tag "a"
    | _ => false
    end in
  JSXOpeningElement isLink (Jsx.element "Link" [attribute "href" (str "#")])
  = JSXOpeningElement isLink (Jsx.element "a" [attribute "href" (str "#")])
  ∧ JSXOpeningElement isLink (Jsx.element "div" []) = []
  ∧ VElement (Vue.element "A" []) = [].
Proof.
  intros isLink.
  destruct (anchor_rule_follows_the_component_mapping isLink) as (H1 & H2 & H3).
  split; [|split].
  - apply (H1 "Link"). reflexivity.
  - apply H2; [discriminate | reflexivity].
  - apply H3. discriminate.
Defined.

End AnchorFurtherFacts.
(** ** Further properties of the rule visitors *)

(** Nothing is a member of the empty list of reports. *)
Ltac nothing_in H := apply elem_of_nil in H; destruct H.
Ltac no_report := let H := fresh in intros H; nothing_in H.

(** Split on every [match] and [if] of the goal, then close it. *)
Ltac by_cases := repeat case_match; simpl; first [ lia | done ].

Section VisitorFacts.
Import Jsx Vue JsxAstUtils VueAstUtils SpecTerms Vocabulary.

Lemma hasJSXAttribute_handler (node : Jsx.JSXOpeningElement) (n : string)
                              (s : gset string) :
  n ∈ s → n ≠ "" →
  hasJSXAttribute node n = true →
  some (EventUtils.jsx_handler_in s) (Jsx.attributes node) = true.
Proof.
  intros Hn Hne. unfold hasJSXAttribute.
  destruct (Jsx.attributes node) as [attrs|]; [|done]. simpl.
  rewrite !existsb_elem_of. intros (attr & Hattr & Hnamed).
  exists attr. split; [done|].
  unfold JsxAstUtils.named in Hnamed. unfold EventUtils.jsx_handler_in.
  apply andb_true_iff in Hnamed as [-> Heq].
  destruct (attr_name_name attr) as [| | | |x|]; try discriminate Heq.
  apply String.eqb_eq in Heq as ->. cbn [negb andb truthy has].
  rewrite (bool_decide_eq_true_2 _ Hn).
  by destruct (String.eqb_spec n "").
Qed.

Lemma vue_keyboard_directive_handler (attr : VAttr) :
  vue_keyboard_directive attr = true →
  EventUtils.vue_handler_in EventUtils.VUE_KEYBOARD_HANDLER_SET
    EventUtils.VUE_KEYBOARD_EVENT_NAMES attr = true.
Proof.
  destruct attr as [k v|d [[a|]|] v]; try discriminate.
  unfold vue_keyboard_directive.
  intros [->%String.eqb_eq Ha]%andb_true_iff.
  apply orb_true_iff in Ha as [[->%String.eqb_eq | ->%String.eqb_eq]%orb_true_iff
                              | ->%String.eqb_eq]; reflexivity.
Qed.

(** X10.  The handler checks that rules make on their own are never wider
    than the classifier: when anchor-is-valid reports preferButton the
    element has a click handler by the classifier, and what
    no-noninteractive-element-to-interactive-role takes for a keyboard
    handler is one by the classifier, in both dialects. *)
Theorem rule_handler_checks_are_within_the_classifier :
  (∀ (isElementLike : Jsx.JSXOpeningElement → string → bool)
     (node : Jsx.JSXOpeningElement),
      AnchorIsValid.preferButton ∈ AnchorIsValid.JSXOpeningElement isElementLike node →
      EventUtils.hasJSXClickHandler node = true)
  ∧ (∀ node : Vue.VElement,
      AnchorIsValid.preferButton ∈ AnchorIsValid.VElement node →
      EventUtils.hasVueClickHandler node = true)
  ∧ (∀ node : Jsx.JSXOpeningElement,
      NoNoninteractiveElementToInteractiveRole.hasJSXKeyboardHandler node = true →
      EventUtils.hasJSXKeyboardHandler node = true)
  ∧ (∀ node : Vue.VElement,
      NoNoninteractiveElementToInteractiveRole.hasVueKeyboardHandler node = true →
      EventUtils.hasVueKeyboardHandler node = true).
Proof.
  split; [|split; [|split]].
  - intros isElementLike node. unfold AnchorIsValid.JSXOpeningElement.
    destruct (Jsx.name node); try (no_report).
    destruct (_ && _); [no_report|].
    destruct (getJSXAttribute node "href") as [hrefAttr|].
    + destruct (attr_value hrefAttr) as [[[]| | | |]|];
        try (no_report).
      destruct (AnchorIsValid.isInvalidHref _);
        [|no_report].
      intros H. apply list_elem_of_singleton in H. discriminate H.
    + destruct (hasJSXAttribute node "onClick") eqn:Hclick.
      * intros _.
        apply (hasJSXAttribute_handler node "onClick");
          [decide_closed | discriminate | exact Hclick].
      * intros H. apply list_elem_of_singleton in H. discriminate H.
  - intros node. unfold AnchorIsValid.VElement.
    destruct (negb _); [no_report|].
    destruct (getVueAttribute node "href") as [hrefAttr|].
    + destruct (attr_value_value (Some hrefAttr));
        try (no_report).
      destruct (AnchorIsValid.isInvalidHref _);
        [|no_report].
      intros H. apply list_elem_of_singleton in H. discriminate H.
    + destruct (some _ (startTag_attributes node)) eqn:Hclick.
      * intros _. unfold EventUtils.hasVueClickHandler,
          EventUtils.hasVueEventAttribute.
        destruct (startTag_attributes node) as [attrs|]; [|done].
        simpl in Hclick. apply existsb_elem_of in Hclick as (attr & Hattr & Hon).
        apply existsb_elem_of. exists attr. split; [done|].
        destruct attr as [k v|d [[a|]|] v]; try discriminate Hon;
          simpl in Hon; try (by rewrite andb_false_r in Hon).
        apply andb_true_iff in Hon as [->%String.eqb_eq ->%String.eqb_eq].
        reflexivity.
      * intros H. apply list_elem_of_singleton in H. discriminate H.
  - intros node.
    unfold NoNoninteractiveElementToInteractiveRole.hasJSXKeyboardHandler,
      NoNoninteractiveElementToInteractiveRole.JSX_KEYBOARD_HANDLERS.
    cbn [existsb]. rewrite !orb_true_iff.
    intros [H|[H|[H|H]]]; try discriminate H;
      (eapply hasJSXAttribute_handler; [| |exact H]);
      first [ decide_closed | discriminate ].
  - intros node.
    rewrite hasVueKeyboardHandler_directive.
    unfold EventUtils.hasVueKeyboardHandler, EventUtils.hasVueEventAttribute.
    destruct (startTag_attributes node) as [attrs|]; [|done]. simpl.
    rewrite !existsb_elem_of. intros (attr & Hattr & Hkey).
    exists attr. split; [done|]. by apply vue_keyboard_directive_handler.
Qed.

Lemma rule_handler_checks_are_within_the_classifier_witness :
  EventUtils.hasJSXClickHandler (Jsx.element "a" [attribute "onClick" fn]) = true
  ∧ EventUtils.hasVueClickHandler
      (Vue.element "a" [VDirective "on" (Some (ArgIdentifier "click")) None])
    = true
  ∧ EventUtils.hasJSXKeyboardHandler (Jsx.element "div" [attribute "onKeyUp" fn])
    = true
  ∧ EventUtils.hasVueKeyboardHandler
      (Vue.element "div" [VDirective "on" (Some (ArgIdentifier "keyup")) None])
    = true.
Proof.
  destruct rule_handler_checks_are_within_the_classifier as (H1 & H2 & H3 & H4).
  split; [|split; [|split]].
  - apply (H1 (λ _ _, false)). apply list_elem_of_here.
  - apply H2. apply list_elem_of_here.
  - apply H3. reflexivity.
  - apply H4. reflexivity.
Defined.

(** X11.  Every visitor reports at most once on an element. *)
Theorem every_visitor_reports_at_most_once :
  (∀ node, (List.length (FormLabel.JSXOpeningElement node) ≤ 1)%nat)
  ∧ (∀ node, (List.length (FormLabel.VElement node) ≤ 1)%nat)
  ∧ (∀ isElementLike node,
        (List.length (AnchorIsValid.JSXOpeningElement isElementLike node)
         ≤ 1)%nat)
  ∧ (∀ node, (List.length (AnchorIsValid.VElement node) ≤ 1)%nat)
  ∧ (∀ resolve node,
        (List.length
           (NoNoninteractiveElementToInteractiveRole.JSXOpeningElement
              resolve node)
         ≤ 1)%nat)
  ∧ (∀ node,
        (List.length (NoNoninteractiveElementToInteractiveRole.VElement node)
         ≤ 1)%nat)
  ∧ (∀ node, (List.length (Scope.JSXOpeningElement node) ≤ 1)%nat)
  ∧ (∀ node, (List.length (Scope.VElement node) ≤ 1)%nat)
  ∧ (∀ node, (List.length (PreferTagOverRole.JSXOpeningElement node) ≤ 1)%nat)
  ∧ (∀ node, (List.length (PreferTagOverRole.VElement node) ≤ 1)%nat)
  ∧ (∀ resolve toString node,
        (List.length
           (NoRedundantRoles.JSXOpeningElement resolve toString node)
         ≤ 1)%nat)
  ∧ (∀ node, (List.length (NoRedundantRoles.VElement node) ≤ 1)%nat)
  ∧ (∀ node,
        (List.length
           (NoInteractiveElementToNoninteractiveRole.JSXOpeningElement node)
         ≤ 1)%nat)
  ∧ (∀ node,
        (List.length
           (NoInteractiveElementToNoninteractiveRole.VElement node)
         ≤ 1)%nat).
Proof.
  repeat apply conj; intros.
  - unfold FormLabel.JSXOpeningElement. by_cases.
  - unfold FormLabel.VElement. by_cases.
  - unfold AnchorIsValid.JSXOpeningElement. by_cases.
  - unfold AnchorIsValid.VElement. by_cases.
  - unfold NoNoninteractiveElementToInteractiveRole.JSXOpeningElement. by_cases.
  - unfold NoNoninteractiveElementToInteractiveRole.VElement. by_cases.
  - unfold Scope.JSXOpeningElement. by_cases.
  - unfold Scope.VElement. by_cases.
  - unfold PreferTagOverRole.JSXOpeningElement, PreferTagOverRole.check. by_cases.
  - unfold PreferTagOverRole.VElement, PreferTagOverRole.check. by_cases.
  - unfold NoRedundantRoles.JSXOpeningElement. by_cases.
  - unfold NoRedundantRoles.VElement. by_cases.
  - unfold NoInteractiveElementToNoninteractiveRole.JSXOpeningElement. by_cases.
  - unfold NoInteractiveElementToNoninteractiveRole.VElement. by_cases.
Qed.

(** X12.  The visitors that lower-case the tag give the same reports for
    a tag written in any letter case as for the lower-cased tag. *)
Theorem visitors_ignore_the_case_of_the_tag :
  (∀ n attrs,
      FormLabel.JSXOpeningElement
        {| Jsx.name := JSXIdentifier n; attributes := attrs |}
      = FormLabel.JSXOpeningElement
          {| Jsx.name := JSXIdentifier (toLowerCase n); attributes := attrs |})
  ∧ (∀ n attrs,
      FormLabel.VElement {| Vue.name := n; startTag_attributes := attrs |}
      = FormLabel.VElement
          {| Vue.name := toLowerCase n; startTag_attributes := attrs |})
  ∧ (∀ n attrs,
      Scope.JSXOpeningElement
        {| Jsx.name := JSXIdentifier n; attributes := attrs |}
      = Scope.JSXOpeningElement
          {| Jsx.name := JSXIdentifier (toLowerCase n); attributes := attrs |})
  ∧ (∀ n attrs,
      Scope.VElement {| Vue.name := n; startTag_attributes := attrs |}
      = Scope.VElement
          {| Vue.name := toLowerCase n; startTag_attributes := attrs |})
  ∧ (∀ n attrs,
      PreferTagOverRole.JSXOpeningElement
        {| Jsx.name := JSXIdentifier n; attributes := attrs |}
      = PreferTagOverRole.JSXOpeningElement
          {| Jsx.name := JSXIdentifier (toLowerCase n); attributes := attrs |})
  ∧ (∀ n attrs,
      PreferTagOverRole.VElement
        {| Vue.name := n; startTag_attributes := attrs |}
      = PreferTagOverRole.VElement
          {| Vue.name := toLowerCase n; startTag_attributes := attrs |})
  ∧ (∀ n attrs,
      NoNoninteractiveElementToInteractiveRole.VElement
        {| Vue.name := n; startTag_attributes := attrs |}
      = NoNoninteractiveElementToInteractiveRole.VElement
          {| Vue.name := toLowerCase n; startTag_attributes := attrs |})
  ∧ (∀ n attrs,
      NoInteractiveElementToNoninteractiveRole.JSXOpeningElement
        {| Jsx.name := JSXIdentifier n; attributes := attrs |}
      = NoInteractiveElementToNoninteractiveRole.JSXOpeningElement
          {| Jsx.name := JSXIdentifier (toLowerCase n); attributes := attrs |})
  ∧ (∀ n attrs,
      NoInteractiveElementToNoninteractiveRole.VElement
        {| Vue.name := n; startTag_attributes := attrs |}
      = NoInteractiveElementToNoninteractiveRole.VElement
          {| Vue.name := toLowerCase n; startTag_attributes := attrs |})
  ∧ (∀ n attrs,
      NoRedundantRoles.VElement
        {| Vue.name := n; startTag_attributes := attrs |}
      = NoRedundantRoles.VElement
          {| Vue.name := toLowerCase n; startTag_attributes := attrs |}).
Proof.
  repeat apply conj; intros n attrs.
  - unfold FormLabel.JSXOpeningElement. cbn [Jsx.name].
    by rewrite toLowerCase_idemp.
  - unfold FormLabel.VElement. cbn [Vue.name]. by rewrite toLowerCase_idemp.
  - unfold Scope.JSXOpeningElement. cbn [Jsx.name].
    by rewrite toLowerCase_idemp.
  - unfold Scope.VElement. cbn [Vue.name]. by rewrite toLowerCase_idemp.
  - unfold PreferTagOverRole.JSXOpeningElement. cbn [Jsx.name].
    by rewrite toLowerCase_idemp.
  - unfold PreferTagOverRole.VElement. cbn [Vue.name].
    by rewrite toLowerCase_idemp.
  - unfold NoNoninteractiveElementToInteractiveRole.VElement. cbn [Vue.name].
    by rewrite toLowerCase_idemp.
  - unfold NoInteractiveElementToNoninteractiveRole.JSXOpeningElement.
    cbn [Jsx.name]. by rewrite toLowerCase_idemp.
  - unfold NoInteractiveElementToNoninteractiveRole.VElement. cbn [Vue.name].
    by rewrite toLowerCase_idemp.
  - unfold NoRedundantRoles.VElement. cbn [Vue.name].
    by rewrite toLowerCase_idemp.
Qed.






Lemma getStaticRole_jsx (node : Jsx.JSXOpeningElement) :
  PreferTagOverRole.getStaticRole node (λ n, getJSXAttribute n "role")
  = toLowerCase <$> (getJSXAttribute node "role" ≫= jsx_static_string).
Proof.
  unfold PreferTagOverRole.getStaticRole, jsx_static_string.
  destruct (getJSXAttribute node "role") as [[nm [[[]|[[]| |]|]|]|arg]|];
    reflexivity.
Qed.

Lemma getStaticRole_vue (node : Vue.VElement) :
  PreferTagOverRole.getStaticRole node (λ n, getVueAttribute n "role")
  = toLowerCase <$> (getVueAttribute node "role" ≫= vue_static_string).
Proof.
  unfold PreferTagOverRole.getStaticRole.
  destruct (getVueAttribute node "role") as [[k [s|]|d arg [e|]]|];
    reflexivity.
Qed.

Lemma jsx_role_lower (attr : JSXAttr) :
  NoNoninteractiveElementToInteractiveRole.jsx_role attr
  = toLowerCase <$> jsx_static_string attr.
Proof. by destruct attr as [nm [[[]|[[]| |]|]|]|arg]. Qed.

(** X15.  All the rules resolve a role attribute alike.  In JSX the
    role of prefer-tag-over-role, of the two rules on interactive roles
    and of no-redundant-roles is one and the same, whatever the
    attribute; in both dialects there is a role exactly when the
    attribute has a static string value, and for a value written in ASCII
    the role is that value lower-cased. *)
Theorem rules_resolve_the_same_role :
  (∀ node : Jsx.JSXOpeningElement,
      PreferTagOverRole.getStaticRole node (λ n, getJSXAttribute n "role")
      = NoInteractiveElementToNoninteractiveRole.getJSXRoleValue node
      ∧ NoInteractiveElementToNoninteractiveRole.getJSXRoleValue node
        = getJSXAttribute node "role"
            ≫= NoNoninteractiveElementToInteractiveRole.jsx_role)
  ∧ (∀ attr : JSXAttr,
      NoNoninteractiveElementToInteractiveRole.jsx_role attr
      = NoRedundantRoles.jsx_explicitRole attr
      ∧ (NoRedundantRoles.jsx_explicitRole attr = None
         ↔ jsx_static_string attr = None))
  ∧ (∀ (attr : JSXAttr) (s : string),
      jsx_static_string attr = Some s →
      isASCII s = true →
      NoRedundantRoles.jsx_explicitRole attr = Some (toLowerCase s))
  ∧ (∀ node : Vue.VElement,
      PreferTagOverRole.getStaticRole node (λ n, getVueAttribute n "role")
      = None
      ↔ getVueAttribute node "role" ≫= vue_static_string = None)
  ∧ (∀ (node : Vue.VElement) (attr : VAttr) (s : string),
      getVueAttribute node "role" = Some attr →
      vue_static_string attr = Some s →
      isASCII s = true →
      PreferTagOverRole.getStaticRole node (λ n, getVueAttribute n "role")
      = Some (toLowerCase s)).
Proof.
  split; [|split; [|split; [|split]]].
  - intros node. rewrite getStaticRole_jsx.
    unfold NoInteractiveElementToNoninteractiveRole.getJSXRoleValue,
      jsx_static_string.
    by destruct (getJSXAttribute node "role")
      as [[nm [[[]|[[]| |]|]|]|arg]|].
  - intros attr. unfold jsx_static_string.
    destruct attr as [nm [[[]|[[]| |]|]|]|arg];
      (split; [reflexivity|]); cbn;
      split; intros Heq; first [ reflexivity | discriminate Heq ].
  - intros attr s Hstatic _. unfold jsx_static_string in Hstatic.
    destruct attr as [nm [[[]|[[]| |]|]|]|arg];
      cbn in Hstatic; try discriminate Hstatic;
      injection Hstatic as ->; reflexivity.
  - intros node. rewrite getStaticRole_vue.
    by destruct (getVueAttribute node "role" ≫= vue_static_string).
  - intros node attr s Hattr Hstatic _.
    rewrite getStaticRole_vue, Hattr. cbn [mbind option_bind].
    by rewrite Hstatic.
Qed.

Lemma rules_resolve_the_same_role_witness :
  let role := attribute "role" (braces (Literal (JsString "Button"))) in
  NoRedundantRoles.jsx_explicitRole role = Some "button"
  ∧ PreferTagOverRole.getStaticRole
      (Vue.element "div" [VAttribute "role" (Some "LINK")])
      (λ n, getVueAttribute n "role")
    = Some "link".
Proof.
  intros role.
  destruct rules_resolve_the_same_role as (_ & _ & Hjsx & _ & Hvue).
  split.
  - apply (Hjsx role "Button"); reflexivity.
  - apply (Hvue (Vue.element "div" _) (VAttribute "role" (Some "LINK")) "LINK");
      reflexivity.
Defined.

Lemma ROLE_TO_TAG_nonempty (role tag : string) :
  PreferTagOverRole.ROLE_TO_TAG !! role = Some tag → role ≠ "" ∧ tag ≠ "".
Proof.
  assert (Hall : map_Forall (λ k v : string, k ≠ "" ∧ v ≠ "")
                   PreferTagOverRole.ROLE_TO_TAG)
    by (apply (bool_decide_unpack _); vm_compute; exact I).
  apply Hall.
Qed.

Lemma truthy_string (x : string) : x ≠ "" → truthy (JsString x) = true.
Proof. intros Hx. cbn [truthy]. by destruct (String.eqb_spec x ""). Qed.

Lemma check_listed_role {N A : Type} `{AttrLike A}
    (node : N) (getRoleAttr : N → option A) (role tag : string) :
  PreferTagOverRole.getStaticRole node getRoleAttr = Some role →
  PreferTagOverRole.ROLE_TO_TAG !! role = Some tag →
  PreferTagOverRole.check node getRoleAttr
  = [PreferTagOverRole.preferTag (JsString tag) role].
Proof.
  intros Hrole Htag. unfold PreferTagOverRole.check.
  destruct (ROLE_TO_TAG_nonempty _ _ Htag) as [Hr Ht].
  rewrite Hrole, (truthy_string _ Hr). cbn [negb].
  unfold PreferTagOverRole.ROLE_TO_TAG_at. rewrite Htag.
  by rewrite (truthy_string _ Ht).
Qed.

(** X16.  prefer-tag-over-role looks at the tag and the role only: a
    generic element whose role attribute has a static string value that
    is, lower-cased, a role of the table is reported with the table's tag
    and the lower-cased role, whatever its other attributes, a tabIndex
    and a keyboard handler included. *)
Theorem prefer_tag_reports_whatever_else_is_there :
  (∀ (node : Jsx.JSXOpeningElement) (n : string) (roleAttr : JSXAttr)
     (s tag : string),
      Jsx.name node = JSXIdentifier n →
      toLowerCase n ∈ PreferTagOverRole.GENERIC_ELEMENTS →
      getJSXAttribute node "role" = Some roleAttr →
      jsx_static_string roleAttr = Some s →
      PreferTagOverRole.ROLE_TO_TAG !! toLowerCase s = Some tag →
      PreferTagOverRole.JSXOpeningElement node
      = [PreferTagOverRole.preferTag (JsString tag) (toLowerCase s)])
  ∧ (∀ (node : Vue.VElement) (roleAttr : VAttr) (s tag : string),
      toLowerCase (Vue.name node) ∈ PreferTagOverRole.GENERIC_ELEMENTS →
      getVueAttribute node "role" = Some roleAttr →
      vue_static_string roleAttr = Some s →
      PreferTagOverRole.ROLE_TO_TAG !! toLowerCase s = Some tag →
      PreferTagOverRole.VElement node
      = [PreferTagOverRole.preferTag (JsString tag) (toLowerCase s)]).
Proof.
  split.
  - intros node n roleAttr s tag Hname Hgeneric Hattr Hstatic Htag.
    unfold PreferTagOverRole.JSXOpeningElement. rewrite Hname.
    cbn [has]. rewrite (bool_decide_eq_true_2 _ Hgeneric). cbn [negb].
    apply check_listed_role; [|done].
    rewrite getStaticRole_jsx, Hattr. cbn [mbind option_bind].
    by rewrite Hstatic.
  - intros node roleAttr s tag Hgeneric Hattr Hstatic Htag.
    unfold PreferTagOverRole.VElement.
    cbn [has]. rewrite (bool_decide_eq_true_2 _ Hgeneric). cbn [negb].
    apply check_listed_role; [|done].
    rewrite getStaticRole_vue, Hattr. cbn [mbind option_bind].
    by rewrite Hstatic.
Qed.

Lemma prefer_tag_reports_whatever_else_is_there_witness :
  let role := attribute "role" (str "Button") in
  let tabIndex := attribute "tabIndex" (braces (Literal (JsNumber 0))) in
  PreferTagOverRole.JSXOpeningElement
    (Jsx.element "div" [tabIndex; attribute "onKeyDown" fn; role])
  = [PreferTagOverRole.preferTag (JsString "<button>") "button"]
  ∧ PreferTagOverRole.VElement
      (Vue.element "span"
         [VAttribute "tabindex" (Some "0"); VAttribute "role" (Some "LINK")])
    = [PreferTagOverRole.preferTag
         (JsString ("<a " ++ PreferTagOverRole.quoted "href" "..." ++ ">"))
         "link"].
Proof.
  intros role tabIndex.
  destruct prefer_tag_reports_whatever_else_is_there as [Hjsx Hvue].
  split.
  - apply (Hjsx (Jsx.element "div" _) "div" role "Button");
      first [ decide_closed | reflexivity ].
  - apply (Hvue (Vue.element "span" _) (VAttribute "role" (Some "LINK")) "LINK");
      first [ decide_closed | reflexivity ].
Defined.

End VisitorFacts.
(** ** Further properties of the rules on roles *)

Section RoleRuleFacts.
Import Jsx Vue JsxAstUtils VueAstUtils SpecTerms Vocabulary.

Lemma lower_case_name (s x : string) :
  toLowerCase s = x → toLowerCase x = x.
Proof. intros <-. apply toLowerCase_idemp. Qed.

Lemma inherited_lower_case (s : string) :
  toLowerCase s ∈ PreferTagOverRole.Object_prototype
  ↔ toLowerCase s ∈ ["constructor"; "__proto__"].
Proof.
  split; intros Hin.
  - unfold PreferTagOverRole.Object_prototype, new_Set in Hin.
    apply elem_of_list_to_set in Hin.
    repeat (apply elem_of_cons in Hin as [Heq | Hin];
            [first [ rewrite Heq; decide_closed
                   | apply lower_case_name in Heq; discriminate Heq ]|]).
    by apply elem_of_nil in Hin.
  - repeat (apply elem_of_cons in Hin as [-> | Hin]; [decide_closed|]).
    by apply elem_of_nil in Hin.
Qed.

Lemma check_unlisted_role {N A : Type} `{AttrLike A}
    (node : N) (getRoleAttr : N → option A) (s : string) :
  PreferTagOverRole.getStaticRole node getRoleAttr = Some (toLowerCase s) →
  PreferTagOverRole.ROLE_TO_TAG !! toLowerCase s = None →
  PreferTagOverRole.check node getRoleAttr
  = if bool_decide (toLowerCase s ∈ ["constructor"; "__proto__"])
    then [PreferTagOverRole.preferTag JsObject (toLowerCase s)] else [].
Proof.
  intros Hrole Htag. unfold PreferTagOverRole.check.
  rewrite Hrole. unfold PreferTagOverRole.ROLE_TO_TAG_at. rewrite Htag.
  rewrite (bool_decide_ext _ _ (inherited_lower_case s)).
  destruct (bool_decide (toLowerCase s ∈ ["constructor"; "__proto__"])) eqn:Hin.
  - apply bool_decide_eq_true in Hin.
    assert (toLowerCase s ≠ "") as Hne by (intros Heq; rewrite Heq in Hin;
      revert Hin; apply (bool_decide_unpack _); vm_compute; exact I).
    by rewrite (truthy_string _ Hne).
  - by destruct (negb (truthy (JsString (toLowerCase s)))).
Qed.

(** X17.  A role, written in ASCII, that the table of
    prefer-tag-over-role does not list is still reported when it is,
    lower-cased, [constructor] or [__proto__]: the lookup finds the
    property every object inherits, and the report's tag is that object,
    not a string.  No other unlisted role written in ASCII is reported. *)
Theorem prefer_tag_finds_inherited_properties :
  (∀ (node : Jsx.JSXOpeningElement) (n : string) (roleAttr : JSXAttr)
     (s : string),
      Jsx.name node = JSXIdentifier n →
      toLowerCase n ∈ PreferTagOverRole.GENERIC_ELEMENTS →
      getJSXAttribute node "role" = Some roleAttr →
      jsx_static_string roleAttr = Some s →
      isASCII s = true →
      PreferTagOverRole.ROLE_TO_TAG !! toLowerCase s = None →
      PreferTagOverRole.JSXOpeningElement node
      = if bool_decide (toLowerCase s ∈ ["constructor"; "__proto__"])
        then [PreferTagOverRole.preferTag JsObject (toLowerCase s)] else [])
  ∧ (∀ (node : Vue.VElement) (roleAttr : VAttr) (s : string),
      toLowerCase (Vue.name node) ∈ PreferTagOverRole.GENERIC_ELEMENTS →
      getVueAttribute node "role" = Some roleAttr →
      vue_static_string roleAttr = Some s →
      isASCII s = true →
      PreferTagOverRole.ROLE_TO_TAG !! toLowerCase s = None →
      PreferTagOverRole.VElement node
      = if bool_decide (toLowerCase s ∈ ["constructor"; "__proto__"])
        then [PreferTagOverRole.preferTag JsObject (toLowerCase s)] else []).
Proof.
  split.
  - intros node n roleAttr s Hname Hgeneric Hattr Hstatic _ Htag.
    unfold PreferTagOverRole.JSXOpeningElement. rewrite Hname.
    cbn [has]. rewrite (bool_decide_eq_true_2 _ Hgeneric). cbn [negb].
    apply check_unlisted_role; [|done].
    rewrite getStaticRole_jsx, Hattr. cbn [mbind option_bind].
    by rewrite Hstatic.
  - intros node roleAttr s Hgeneric Hattr Hstatic _ Htag.
    unfold PreferTagOverRole.VElement.
    cbn [has]. rewrite (bool_decide_eq_true_2 _ Hgeneric). cbn [negb].
    apply check_unlisted_role; [|done].
    rewrite getStaticRole_vue, Hattr. cbn [mbind option_bind].
    by rewrite Hstatic.
Qed.

Lemma prefer_tag_finds_inherited_properties_witness :
  PreferTagOverRole.JSXOpeningElement
    (Jsx.element "div" [attribute "role" (str "Constructor")])
  = [PreferTagOverRole.preferTag JsObject "constructor"]
  ∧ PreferTagOverRole.VElement
      (Vue.element "div" [VAttribute "role" (Some "tooltip")]) = [].
Proof.
  destruct prefer_tag_finds_inherited_properties as [Hjsx Hvue].
  split.
  - etrans;
      [ apply (Hjsx (Jsx.element "div" _) "div"
                 (attribute "role" (str "Constructor")) "Constructor");
        first [ decide_closed | reflexivity ]
      | reflexivity ].
  - etrans;
      [ apply (Hvue (Vue.element "div" _) (VAttribute "role" (Some "tooltip"))
                 "tooltip");
        first [ decide_closed | reflexivity ]
      | reflexivity ].
Defined.

Lemma getJSXRoleValue_static (node : Jsx.JSXOpeningElement)
                              (roleAttr : JSXAttr) (s : string) :
  getJSXAttribute node "role" = Some roleAttr →
  jsx_static_string roleAttr = Some s →
  NoInteractiveElementToNoninteractiveRole.getJSXRoleValue node
  = Some (toLowerCase s).
Proof.
  intros Hattr Hstatic.
  unfold NoInteractiveElementToNoninteractiveRole.getJSXRoleValue.
  rewrite Hattr. unfold jsx_static_string in Hstatic.
  jsx_attr_cases roleAttr Hstatic; by injection Hstatic as ->.
Qed.

Lemma NONINTERACTIVE_ROLES_has (role : string) :
  role ∈ ["none"; "presentation"] →
  truthy (JsString role) = true
  ∧ has NoInteractiveElementToNoninteractiveRole.NONINTERACTIVE_ROLES
        (JsString role) = true.
Proof. intros Hrole. members Hrole; by split. Qed.

(** X18.  A button, select, textarea or summary whose role attribute has
    the static string value none or presentation, in any letter case, is
    always reported, with the lower-cased tag and role. *)
Theorem role_none_on_a_control_is_reported :
  (∀ (node : Jsx.JSXOpeningElement) (n : string) (roleAttr : JSXAttr)
     (s : string),
      Jsx.name node = JSXIdentifier n →
      toLowerCase n ∈ ["button"; "select"; "textarea"; "summary"] →
      getJSXAttribute node "role" = Some roleAttr →
      jsx_static_string roleAttr = Some s →
      toLowerCase s ∈ ["none"; "presentation"] →
      NoInteractiveElementToNoninteractiveRole.JSXOpeningElement node
      = [NoInteractiveElementToNoninteractiveRole.noInteractiveToNoninteractive
           (toLowerCase n) (toLowerCase s)])
  ∧ (∀ (node : Vue.VElement) (roleAttr : VAttr) (s : string),
      toLowerCase (Vue.name node) ∈ ["button"; "select"; "textarea"; "summary"] →
      getVueAttribute node "role" = Some roleAttr →
      vue_static_string roleAttr = Some s →
      toLowerCase s ∈ ["none"; "presentation"] →
      NoInteractiveElementToNoninteractiveRole.VElement node
      = [NoInteractiveElementToNoninteractiveRole.noInteractiveToNoninteractive
           (toLowerCase (Vue.name node)) (toLowerCase s)]).
Proof.
  split.
  - intros node n roleAttr s Hname Htag Hattr Hstatic Hrole.
    unfold NoInteractiveElementToNoninteractiveRole.JSXOpeningElement.
    rewrite Hname, (getJSXRoleValue_static _ _ _ Hattr Hstatic).
    destruct (NONINTERACTIVE_ROLES_has _ Hrole) as [-> ->]. cbn [negb orb].
    members Htag; reflexivity.
  - intros node roleAttr s Htag Hattr Hstatic Hrole.
    unfold NoInteractiveElementToNoninteractiveRole.VElement. rewrite Hattr.
    destruct roleAttr as [k [v|]|]; try discriminate Hstatic.
    injection Hstatic as ->.
    cbn [attr_value_value mbind option_bind attr_value Vue.VAttr_AttrLike fmap
         option_fmap option_map value_value].
    destruct (NONINTERACTIVE_ROLES_has _ Hrole) as [-> ->]. cbn [negb orb].
    members Htag; reflexivity.
Qed.

Lemma role_none_on_a_control_is_reported_witness :
  NoInteractiveElementToNoninteractiveRole.JSXOpeningElement
    (Jsx.element "Button" [attribute "role" (braces (Literal (JsString "None")))])
  = [NoInteractiveElementToNoninteractiveRole.noInteractiveToNoninteractive
       "button" "none"]
  ∧ NoInteractiveElementToNoninteractiveRole.VElement
      (Vue.element "summary" [VAttribute "role" (Some "presentation")])
    = [NoInteractiveElementToNoninteractiveRole.noInteractiveToNoninteractive
         "summary" "presentation"].
Proof.
  destruct role_none_on_a_control_is_reported as [Hjsx Hvue].
  split.
  - apply (Hjsx (Jsx.element "Button" _) "Button"
             (attribute "role" (braces (Literal (JsString "None")))) "None");
      first [ decide_closed | reflexivity ].
  - apply (Hvue (Vue.element "summary" _)
             (VAttribute "role" (Some "presentation")) "presentation");
      first [ decide_closed | reflexivity ].
Defined.

(** X19.  An anchor with the role none or presentation is reported only
    as far as it is a link.  In JSX it passes exactly when it has no href
    attribute or the href is a falsy literal written directly as the
    value, so an href in braces counts as a link; in a template it passes
    exactly when the href has no non-empty literal value, so a bound href
    does not count. *)
Theorem role_none_on_an_anchor_needs_an_href :
  (∀ (node : Jsx.JSXOpeningElement) (n : string) (roleAttr : JSXAttr)
     (s : string),
      Jsx.name node = JSXIdentifier n →
      toLowerCase n = "a" →
      getJSXAttribute node "role" = Some roleAttr →
      jsx_static_string roleAttr = Some s →
      toLowerCase s ∈ ["none"; "presentation"] →
      NoInteractiveElementToNoninteractiveRole.JSXOpeningElement node = []
      ↔ getJSXAttribute node "href" = None
        ∨ ∃ hrefAttr v,
            getJSXAttribute node "href" = Some hrefAttr
            ∧ attr_value hrefAttr = Some (ValLiteral v) ∧ truthy v = false)
  ∧ (∀ (node : Vue.VElement) (roleAttr : VAttr) (s : string),
      toLowerCase (Vue.name node) = "a" →
      getVueAttribute node "role" = Some roleAttr →
      vue_static_string roleAttr = Some s →
      toLowerCase s ∈ ["none"; "presentation"] →
      NoInteractiveElementToNoninteractiveRole.VElement node = []
      ↔ vue_truthy_literal (getVueAttribute node "href") = false).
Proof.
  split.
  - intros node n roleAttr s Hname Htag Hattr Hstatic Hrole.
    unfold NoInteractiveElementToNoninteractiveRole.JSXOpeningElement.
    rewrite Hname, (getJSXRoleValue_static _ _ _ Hattr Hstatic), Htag.
    destruct (NONINTERACTIVE_ROLES_has _ Hrole) as [-> ->]. cbn [negb orb].
    replace (has NoInteractiveElementToNoninteractiveRole.INTERACTIVE_ELEMENTS
               (JsString "a")) with true by reflexivity.
    replace (String.eqb "a" "a") with true by reflexivity.
    replace (String.eqb "a" "input") with false by reflexivity.
    cbn [negb andb].
    destruct (getJSXAttribute node "href") as [hrefAttr|].
    + unfold NoInteractiveElementToNoninteractiveRole.jsx_falsy_literal.
      destruct (attr_value hrefAttr) as [[v| | | |]|] eqn:Hval;
        try (split; [discriminate|];
             intros [[=] | (a & v' & [= <-] & Hvalue & _)]; congruence).
      destruct (truthy v) eqn:Hv; cbn [negb].
      * split; [discriminate|].
        intros [[=] | (a & v' & [= <-] & Hvalue & Hv')]. congruence.
      * split; [|done]. intros _. right. eauto.
    + split; [by left | done].
  - intros node roleAttr s Htag Hattr Hstatic Hrole.
    unfold NoInteractiveElementToNoninteractiveRole.VElement.
    rewrite Hattr, Htag.
    destruct roleAttr as [k [v|]|]; try discriminate Hstatic.
    injection Hstatic as ->.
    cbn [attr_value_value mbind option_bind attr_value Vue.VAttr_AttrLike fmap
         option_fmap option_map value_value].
    destruct (NONINTERACTIVE_ROLES_has _ Hrole) as [-> ->]. cbn [negb orb].
    replace (has NoInteractiveElementToNoninteractiveRole.INTERACTIVE_ELEMENTS
               (JsString "a")) with true by reflexivity.
    replace (String.eqb "a" "a") with true by reflexivity.
    replace (String.eqb "a" "input") with false by reflexivity.
    cbn [negb andb].
    destruct (getVueAttribute node "href") as [[k' [h|]|d arg [e|]]|];
      cbn [attr_value_value mbind option_bind attr_value Vue.VAttr_AttrLike fmap
           option_fmap option_map value_value truthy vue_truthy_literal negb];
      try (split; [reflexivity | reflexivity]).
    destruct (String.eqb h ""); cbn [negb]; split; done.
Qed.

Lemma role_none_on_an_anchor_needs_an_href_witness :
  let none := attribute "role" (str "none") in
  NoInteractiveElementToNoninteractiveRole.JSXOpeningElement
    (Jsx.element "a" [none; attribute "href" (str "")]) = []
  ∧ vue_truthy_literal
      (getVueAttribute
         (Vue.element "a"
            [VAttribute "role" (Some "none");
             VDirective "bind" (Some (ArgIdentifier "href"))
               (Some (Identifier "url"))])
         "href") = false.
Proof.
  intros none.
  destruct role_none_on_an_anchor_needs_an_href as [Hjsx Hvue].
  split.
  - apply (Hjsx (Jsx.element "a" _) "a" none "none");
      first [ decide_closed | reflexivity | idtac ].
    right. exists (attribute "href" (str "")), (JsString "").
    repeat split.
  - apply (Hvue (Vue.element "a" _) (VAttribute "role" (Some "none")) "none");
      first [ decide_closed | reflexivity ].
Defined.

(** X20.  An input with the role none or presentation passes exactly
    when its type is the literal [hidden], written in lower case; any
    other type, a type in another letter case and a missing type are
    reported. *)
Theorem role_none_on_an_input_unless_hidden :
  (∀ (node : Jsx.JSXOpeningElement) (n : string) (roleAttr : JSXAttr)
     (s : string),
      Jsx.name node = JSXIdentifier n →
      toLowerCase n = "input" →
      getJSXAttribute node "role" = Some roleAttr →
      jsx_static_string roleAttr = Some s →
      toLowerCase s ∈ ["none"; "presentation"] →
      NoInteractiveElementToNoninteractiveRole.JSXOpeningElement node = []
      ↔ (attr_value <$> getJSXAttribute node "type")
        = Some (Some (ValLiteral (JsString "hidden"))))
  ∧ (∀ (node : Vue.VElement) (roleAttr : VAttr) (s : string),
      toLowerCase (Vue.name node) = "input" →
      getVueAttribute node "role" = Some roleAttr →
      vue_static_string roleAttr = Some s →
      toLowerCase s ∈ ["none"; "presentation"] →
      NoInteractiveElementToNoninteractiveRole.VElement node = []
      ↔ getVueAttribute node "type" ≫= vue_static_string = Some "hidden").
Proof.
  split.
  - intros node n roleAttr s Hname Htag Hattr Hstatic Hrole.
    unfold NoInteractiveElementToNoninteractiveRole.JSXOpeningElement.
    rewrite Hname, (getJSXRoleValue_static _ _ _ Hattr Hstatic), Htag.
    destruct (NONINTERACTIVE_ROLES_has _ Hrole) as [-> ->]. cbn [negb orb].
    replace (has NoInteractiveElementToNoninteractiveRole.INTERACTIVE_ELEMENTS
               (JsString "input")) with true by reflexivity.
    replace (String.eqb "input" "a") with false by reflexivity.
    replace (String.eqb "input" "input") with true by reflexivity.
    cbn [negb andb].
    unfold NoInteractiveElementToNoninteractiveRole.jsx_hidden_literal.
    destruct (getJSXAttribute node "type") as [typeAttr|];
      cbn [mbind option_bind fmap option_fmap option_map];
      [|split; discriminate].
    destruct (attr_value typeAttr) as [[[]| | | |]|];
      cbn [strict_eq_string]; try (split; discriminate).
    destruct (String.eqb_spec s0 "hidden") as [->|Hne].
    + split; reflexivity.
    + split; [discriminate|]. intros [= Heq]. by destruct Hne.
  - intros node roleAttr s Htag Hattr Hstatic Hrole.
    unfold NoInteractiveElementToNoninteractiveRole.VElement.
    rewrite Hattr, Htag.
    destruct roleAttr as [k [v|]|]; try discriminate Hstatic.
    injection Hstatic as ->.
    cbn [attr_value_value mbind option_bind attr_value Vue.VAttr_AttrLike fmap
         option_fmap option_map value_value].
    destruct (NONINTERACTIVE_ROLES_has _ Hrole) as [-> ->]. cbn [negb orb].
    replace (has NoInteractiveElementToNoninteractiveRole.INTERACTIVE_ELEMENTS
               (JsString "input")) with true by reflexivity.
    replace (String.eqb "input" "a") with false by reflexivity.
    replace (String.eqb "input" "input") with true by reflexivity.
    cbn [negb andb].
    destruct (getVueAttribute node "type") as [[k' [t|]|d arg [e|]]|];
      cbn [attr_value_value mbind option_bind attr_value Vue.VAttr_AttrLike fmap
           option_fmap option_map value_value strict_eq_string
           vue_static_string];
      try (split; discriminate).
    destruct (String.eqb_spec t "hidden") as [->|Hne].
    + split; reflexivity.
    + split; [discriminate|]. intros [= Heq]. by destruct Hne.
Qed.

Lemma role_none_on_an_input_unless_hidden_witness :
  let none := attribute "role" (str "none") in
  (attr_value
     <$> getJSXAttribute
           (Jsx.element "input" [none; attribute "type" (str "hidden")]) "type")
  = Some (Some (ValLiteral (JsString "hidden")))
  ∧ NoInteractiveElementToNoninteractiveRole.VElement
      (Vue.element "input"
         [VAttribute "type" (Some "hidden"); VAttribute "role" (Some "none")])
    = [].
Proof.
  intros none.
  destruct role_none_on_an_input_unless_hidden as [Hjsx Hvue].
  split.
  - apply (Hjsx (Jsx.element "input" _) "input" none "none");
      first [ decide_closed | reflexivity ].
  - apply (Hvue (Vue.element "input" _) (VAttribute "role" (Some "none"))
             "none");
      first [ decide_closed | reflexivity ].
Defined.

End RoleRuleFacts.
(** ** Implicit roles and the rules that read them *)

Section ImplicitRoleFacts.
Import Jsx Vue JsxAstUtils VueAstUtils SpecTerms Vocabulary.

Lemma getImplicitRole_Some (tagName : string)
    (getAttr : string → option string) (hasAttr : string → bool)
    (r : string) :
  NoRedundantRoles.getImplicitRole tagName getAttr hasAttr = Some r →
  (tagName, r) ∈ implicit_roles.
Proof.
  unfold NoRedundantRoles.getImplicitRole.
  generalize (toLowerCase (default "text" (getAttr "type"))) as type.
  intros type Hrole.
  repeat case_match;
    repeat match goal with
           | H : (_ || _) = true |- _ => apply orb_true_iff in H as [H | H]
           | H : (_ || _) = false |- _ =>
               apply orb_false_iff in H as [? H]
           | H : String.eqb _ _ = true |- _ => apply String.eqb_eq in H
           end;
    simplify_eq; try decide_closed.
Qed.

Lemma implicit_roles_Forall :
  Forall (λ p : string * string,
            p.2 ≠ "" ∧ toLowerCase p.2 = p.2
            ∧ is_Some (PreferTagOverRole.ROLE_TO_TAG !! p.2)
            ∧ (p.2 ∉ NoInteractiveElementToNoninteractiveRole.NONINTERACTIVE_ROLES)
            ∧ (p.1 ∈ NoNoninteractiveElementToInteractiveRole.NON_INTERACTIVE_ELEMENTS
               → p.2 ∉ NoNoninteractiveElementToInteractiveRole.INTERACTIVE_ROLES))
         implicit_roles.
Proof. decide_closed. Qed.

Lemma getImplicitRole_facts (tagName : string)
    (getAttr : string → option string) (hasAttr : string → bool)
    (r : string) :
  NoRedundantRoles.getImplicitRole tagName getAttr hasAttr = Some r →
  r ≠ "" ∧ toLowerCase r = r
  ∧ is_Some (PreferTagOverRole.ROLE_TO_TAG !! r)
  ∧ (r ∉ NoInteractiveElementToNoninteractiveRole.NONINTERACTIVE_ROLES)
  ∧ (tagName ∈ NoNoninteractiveElementToInteractiveRole.NON_INTERACTIVE_ELEMENTS
     → r ∉ NoNoninteractiveElementToInteractiveRole.INTERACTIVE_ROLES).
Proof.
  intros Hrole%getImplicitRole_Some.
  exact (proj1 (Forall_forall _ _) implicit_roles_Forall _ Hrole).
Qed.

(** X21.  Every implicit role is a role that prefer-tag-over-role knows:
    whatever the tag and the attributes, a role that [getImplicitRole]
    returns is a non-empty lower-case name with an entry in
    [ROLE_TO_TAG].  So the visitors' test of the implicit role only
    guards against [null], and a lower-cased explicit role can match
    it. *)
Theorem implicit_roles_are_listed_roles (tagName : string)
    (getAttr : string → option string) (hasAttr : string → bool)
    (r : string) :
  NoRedundantRoles.getImplicitRole tagName getAttr hasAttr = Some r →
  r ≠ "" ∧ toLowerCase r = r
  ∧ is_Some (PreferTagOverRole.ROLE_TO_TAG !! r).
Proof.
  intros Hrole.
  destruct (getImplicitRole_facts _ _ _ _ Hrole) as (Hne & Hlower & Htag & _).
  split; [exact Hne|]. split; [exact Hlower | exact Htag].
Qed.

Lemma implicit_roles_are_listed_roles_witness :
  NoRedundantRoles.getImplicitRole
    "select" (λ n, if String.eqb n "size" then Some "4" else None)
    (λ _, false) = Some "listbox"
  ∧ is_Some (PreferTagOverRole.ROLE_TO_TAG !! "listbox").
Proof.
  split; [reflexivity|].
  apply (implicit_roles_are_listed_roles
           "select" (λ n, if String.eqb n "size" then Some "4" else None)
           (λ _, false) "listbox").
  reflexivity.
Defined.

Lemma vue_role_value (node : Vue.VElement) (s : string) :
  attr_value_value (getVueAttribute node "role") = JsString s
  ↔ getVueAttribute node "role" ≫= vue_static_string = Some s.
Proof.
  destruct (getVueAttribute node "role") as [[k [v|]|d arg [e|]]|];
    cbn; split; intros Heq; by simplify_eq.
Qed.

Lemma redundant_vue_inv (node : Vue.VElement) :
  NoRedundantRoles.VElement node ≠ [] →
  ∃ (roleAttr : VAttr) (s : string),
    getVueAttribute node "role" = Some roleAttr
    ∧ vue_static_string roleAttr = Some s
    ∧ NoRedundantRoles.getImplicitRole
        (toLowerCase (Vue.name node)) (NoRedundantRoles.vue_getAttr node)
        (λ name, hasVueAttribute node name) = Some (toLowerCase s)
    ∧ NoRedundantRoles.VElement node
      = [NoRedundantRoles.redundantRole roleAttr (toLowerCase s)
           (toLowerCase (Vue.name node))].
Proof.
  unfold NoRedundantRoles.VElement.
  destruct (getVueAttribute node "role") as [[k [s|]|d arg [e|]]|];
    cbn [attr_value_value mbind option_bind attr_value Vue.VAttr_AttrLike fmap
         option_fmap option_map value_value];
    try (intros []; reflexivity).
  destruct (negb (truthy (JsString (toLowerCase s))));
    [intros []; reflexivity|].
  destruct (NoRedundantRoles.getImplicitRole _ _ _) as [r|] eqn:Hrole;
    [|intros []; reflexivity].
  destruct (truthy (JsString r)); cbn [andb]; [|intros []; reflexivity].
  destruct (String.eqb_spec (toLowerCase s) r) as [<-|];
    [|intros []; reflexivity].
  intros _. exists (VAttribute k (Some s)), s.
  split; [reflexivity|]. split; [reflexivity|].
  split; reflexivity.
Qed.

Lemma has_string (S : gset string) (x : string) :
  has S (JsString x) = true ↔ x ∈ S.
Proof. cbn [has]. apply bool_decide_eq_true. Qed.

Lemma noninteractive_vue_inv (node : Vue.VElement) :
  NoNoninteractiveElementToInteractiveRole.VElement node ≠ [] →
  ∃ s : string,
    getVueAttribute node "role" ≫= vue_static_string = Some s
    ∧ toLowerCase (Vue.name node)
      ∈ NoNoninteractiveElementToInteractiveRole.NON_INTERACTIVE_ELEMENTS
    ∧ toLowerCase s
      ∈ NoNoninteractiveElementToInteractiveRole.INTERACTIVE_ROLES.
Proof.
  unfold NoNoninteractiveElementToInteractiveRole.VElement.
  destruct (has _ (JsString (toLowerCase (Vue.name node)))) eqn:Htag;
    cbn [negb]; [|intros []; reflexivity].
  destruct (attr_value_value _) as [| | | |s|] eqn:Hvalue;
    try (intros []; reflexivity).
  destruct (has _ (JsString (toLowerCase s))) eqn:Hrole;
    [|rewrite orb_true_r; intros []; reflexivity].
  intros _. exists s.
  split; [by apply vue_role_value|].
  split; by apply has_string.
Qed.

Lemma interactive_vue_inv (node : Vue.VElement) :
  NoInteractiveElementToNoninteractiveRole.VElement node ≠ [] →
  ∃ s : string,
    getVueAttribute node "role" ≫= vue_static_string = Some s
    ∧ toLowerCase (Vue.name node)
      ∈ NoInteractiveElementToNoninteractiveRole.INTERACTIVE_ELEMENTS
    ∧ toLowerCase s
      ∈ NoInteractiveElementToNoninteractiveRole.NONINTERACTIVE_ROLES.
Proof.
  unfold NoInteractiveElementToNoninteractiveRole.VElement.
  destruct (has _ (JsString (toLowerCase (Vue.name node)))) eqn:Htag;
    cbn [negb]; [|intros []; reflexivity].
  destruct (attr_value_value _) as [| | | |s|] eqn:Hvalue;
    try (intros []; reflexivity).
  destruct (has _ (JsString (toLowerCase s))) eqn:Hrole;
    [|rewrite orb_true_r; intros []; reflexivity].
  intros _. exists s.
  split; [by apply vue_role_value|].
  split; by apply has_string.
Qed.

Lemma element_sets_disjoint (tagName : string) :
  tagName ∈ NoInteractiveElementToNoninteractiveRole.INTERACTIVE_ELEMENTS →
  tagName
    ∉ NoNoninteractiveElementToInteractiveRole.NON_INTERACTIVE_ELEMENTS.
Proof.
  intros Htag.
  unfold NoInteractiveElementToNoninteractiveRole.INTERACTIVE_ELEMENTS in Htag.
  members Htag; decide_closed.
Qed.

Lemma at_most_one_of_three {A : Type} (l1 l2 l3 : list A) :
  (List.length l1 ≤ 1)%nat → (List.length l2 ≤ 1)%nat →
  (List.length l3 ≤ 1)%nat →
  (l1 ≠ [] → l2 ≠ [] → False) → (l1 ≠ [] → l3 ≠ [] → False) →
  (l2 ≠ [] → l3 ≠ [] → False) →
  (List.length (l1 ++ l2 ++ l3)%list ≤ 1)%nat.
Proof.
  intros H1 H2 H3 H12 H13 H23.
  destruct l1 as [|x1 l1], l2 as [|x2 l2], l3 as [|x3 l3];
    rewrite ?length_app; simpl in *; try lia.
  - by destruct H23.
  - by destruct H13.
  - by destruct H12.
  - by destruct H12.
Qed.

(** X22.  The three rules on roles never pile up on an element of a
    template: whatever the element, at most one report comes from
    no-redundant-roles, no-interactive-element-to-noninteractive-role and
    no-noninteractive-element-to-interactive-role together.  In JSX the
    first and the last resolve the tag alike, and never both report. *)
Theorem role_rules_never_pile_up :
  (∀ node : Vue.VElement,
      (List.length
         (NoRedundantRoles.VElement node
          ++ NoInteractiveElementToNoninteractiveRole.VElement node
          ++ NoNoninteractiveElementToInteractiveRole.VElement node)%list
       ≤ 1)%nat)
  ∧ (∀ (getElementRoleFromJSX : Jsx.JSXOpeningElement → option string)
       (String_ : JsValue → string) (node : Jsx.JSXOpeningElement),
      NoRedundantRoles.JSXOpeningElement getElementRoleFromJSX String_ node
      = []
      ∨ NoNoninteractiveElementToInteractiveRole.JSXOpeningElement
          getElementRoleFromJSX node = []).
Proof.
  split.
  - intros node. apply at_most_one_of_three.
    + unfold NoRedundantRoles.VElement. by_cases.
    + unfold NoInteractiveElementToNoninteractiveRole.VElement. by_cases.
    + unfold NoNoninteractiveElementToInteractiveRole.VElement. by_cases.
    + intros (roleAttr & s & Hattr & Hstatic & Hrole & _)%redundant_vue_inv
             (s' & Hs' & _ & Hnone)%interactive_vue_inv.
      rewrite Hattr in Hs'. cbn [mbind option_bind] in Hs'.
      rewrite Hstatic in Hs'. injection Hs' as <-.
      by destruct (getImplicitRole_facts _ _ _ _ Hrole) as (_ & _ & _ & Hn & _).
    + intros (roleAttr & s & Hattr & Hstatic & Hrole & _)%redundant_vue_inv
             (s' & Hs' & Htag & Hint)%noninteractive_vue_inv.
      rewrite Hattr in Hs'. cbn [mbind option_bind] in Hs'.
      rewrite Hstatic in Hs'. injection Hs' as <-.
      destruct (getImplicitRole_facts _ _ _ _ Hrole) as (_ & _ & _ & _ & Hn).
      by apply Hn.
    + intros (s & _ & Htag & _)%interactive_vue_inv
             (s' & _ & Htag' & _)%noninteractive_vue_inv.
      by apply (element_sets_disjoint _ Htag).
  - intros getElementRoleFromJSX String_ node.
    unfold NoRedundantRoles.JSXOpeningElement,
      NoNoninteractiveElementToInteractiveRole.JSXOpeningElement.
    destruct (getElementRoleFromJSX node) as [tagName|]; [|by left].
    destruct (negb (truthy (JsString tagName))); cbn [orb]; [by left|].
    destruct (has _ (JsString tagName)) eqn:Htag; cbn [negb]; [|by right].
    apply has_string in Htag.
    destruct (getJSXAttribute node "role") as [roleAttr|]; [|by left].
    unfold NoRedundantRoles.jsx_explicitRole,
      NoNoninteractiveElementToInteractiveRole.jsx_role.
    destruct (match attr_value roleAttr with
              | Some (ValLiteral (JsString s)) => Some (toLowerCase s)
              | Some (ValJSXExpressionContainer (Literal (JsString s))) =>
                  Some (toLowerCase s)
              | _ => None
              end) as [role|]; [|by left].
    destruct (negb (truthy (JsString role))); cbn [orb]; [by left|].
    destruct (NoRedundantRoles.getImplicitRole _ _ _) as [r|] eqn:Hrole;
      [|by left].
    destruct (truthy (JsString r)); cbn [andb]; [|by left].
    destruct (String.eqb_spec role r) as [->|]; [|by left].
    destruct (getImplicitRole_facts _ _ _ _ Hrole) as (_ & _ & _ & _ & Hn).
    right. apply Hn in Htag.
    destruct (has _ (JsString r)) eqn:Hint; [|reflexivity].
    apply has_string in Hint. by destruct Htag.
Qed.

Lemma getImplicitRole_anchor (getAttr : string → option string)
    (hasAttr : string → bool) :
  NoRedundantRoles.getImplicitRole "a" getAttr hasAttr
  = match getAttr "href" with
    | Some href =>
        if AnchorIsValid.isInvalidHref href then None else Some "link"
    | None => None
    end.
Proof.
  unfold NoRedundantRoles.getImplicitRole. cbn [String.eqb Ascii.eqb Bool.eqb orb].
  destruct (getAttr "href") as [href|]; [|reflexivity].
  rewrite isInvalidHref_spec.
  by destruct (String.eqb href ""), (String.eqb href "#"),
       (startsWith (toLowerCase href) "javascript:").
Qed.

(** X23.  no-redundant-roles and anchor-is-valid agree on what a real
    href is: the implicit role of [a] is link exactly when [getAttr] gives
    an href that [isInvalidHref] does not call invalid, and there is no
    implicit role otherwise.  So an anchor of a template whose role is
    reported as redundant is never reported by anchor-is-valid. *)
Theorem anchor_is_a_link_iff_its_href_is_valid :
  (∀ (getAttr : string → option string) (hasAttr : string → bool),
      NoRedundantRoles.getImplicitRole "a" getAttr hasAttr
      = match getAttr "href" with
        | Some href =>
            if AnchorIsValid.isInvalidHref href then None else Some "link"
        | None => None
        end)
  ∧ (∀ node : Vue.VElement,
      toLowerCase (Vue.name node) = "a" →
      NoRedundantRoles.VElement node ≠ [] →
      AnchorIsValid.VElement node = []).
Proof.
  split; [exact getImplicitRole_anchor|].
  intros node Htag (roleAttr & s & _ & _ & Hrole & _)%redundant_vue_inv.
  rewrite Htag, getImplicitRole_anchor in Hrole.
  unfold AnchorIsValid.VElement.
  destruct (negb (String.eqb (Vue.name node) "a")); [reflexivity|].
  unfold NoRedundantRoles.vue_getAttr in Hrole.
  destruct (getVueAttribute node "href") as [[k [h|]|d arg [e|]]|];
    cbn [attr_value_value mbind option_bind attr_value Vue.VAttr_AttrLike fmap
         option_fmap option_map value_value] in Hrole |- *;
    try discriminate Hrole; try reflexivity.
  by destruct (AnchorIsValid.isInvalidHref h).
Qed.

Lemma anchor_is_a_link_iff_its_href_is_valid_witness :
  let a := Vue.element "a" [VAttribute "href" (Some "/home");
                            VAttribute "role" (Some "LINK")] in
  NoRedundantRoles.VElement a
  = [NoRedundantRoles.redundantRole (VAttribute "role" (Some "LINK"))
       "link" "a"]
  ∧ AnchorIsValid.VElement a = [].
Proof.
  intros a. split; [reflexivity|].
  destruct anchor_is_a_link_iff_its_href_is_valid as [_ Hvue].
  apply (Hvue a); [reflexivity | discriminate].
Defined.

(** X24.  On a generic element of a template the two rules contradict
    each other: when no-redundant-roles reports the role of a [nav],
    [main], [aside], list, [article] or named [section] as redundant,
    prefer-tag-over-role reports the same role too, and names the tag of
    its table as the element to use instead. *)
Theorem redundant_role_on_a_generic_element_is_reported_twice
    (node : Vue.VElement) :
  toLowerCase (Vue.name node) ∈ PreferTagOverRole.GENERIC_ELEMENTS →
  NoRedundantRoles.VElement node ≠ [] →
  ∃ (roleAttr : VAttr) (role tag : string),
    PreferTagOverRole.ROLE_TO_TAG !! role = Some tag
    ∧ NoRedundantRoles.VElement node
      = [NoRedundantRoles.redundantRole roleAttr role
           (toLowerCase (Vue.name node))]
    ∧ PreferTagOverRole.VElement node
      = [PreferTagOverRole.preferTag (JsString tag) role].
Proof.
  intros Hgeneric
         (roleAttr & s & Hattr & Hstatic & Hrole & Hreport)%redundant_vue_inv.
  destruct (getImplicitRole_facts _ _ _ _ Hrole) as (_ & _ & [tag Htag] & _).
  exists roleAttr, (toLowerCase s), tag.
  split; [exact Htag|]. split; [exact Hreport|].
  unfold PreferTagOverRole.VElement.
  cbn [has]. rewrite (bool_decide_eq_true_2 _ Hgeneric). cbn [negb].
  apply check_listed_role; [|exact Htag].
  rewrite getStaticRole_vue, Hattr. cbn [mbind option_bind].
  by rewrite Hstatic.
Qed.

Lemma redundant_role_on_a_generic_element_is_reported_twice_witness :
  let role := VAttribute "role" (Some "navigation") in
  ∃ tag : string,
    NoRedundantRoles.VElement (Vue.element "nav" [role])
    = [NoRedundantRoles.redundantRole role "navigation" "nav"]
    ∧ PreferTagOverRole.VElement (Vue.element "nav" [role])
      = [PreferTagOverRole.preferTag (JsString tag) "navigation"].
Proof.
  intros role.
  destruct (redundant_role_on_a_generic_element_is_reported_twice
              (Vue.element "nav" [role]))
    as (roleAttr & r & tag & Htag & Hredundant & Hprefer);
    [decide_closed | discriminate |].
  injection Hredundant as <- <-.
  exists tag. split; [reflexivity | exact Hprefer].
Defined.



Lemma getImplicitRole_no_literal (tagName attrName : string)
    (getAttr : string → option string) (hasAttr : string → bool) :
  (tagName, attrName) ∈ [("a", "href"); ("input", "type")] →
  getAttr attrName = Some "" →
  NoRedundantRoles.getImplicitRole tagName getAttr hasAttr = None.
Proof.
  intros Hin Hget.
  apply elem_of_cons in Hin as [[= -> ->] | Hin].
  - rewrite getImplicitRole_anchor, Hget. reflexivity.
  - apply list_elem_of_singleton in Hin as [= -> ->].
    unfold NoRedundantRoles.getImplicitRole.
    cbn [String.eqb Ascii.eqb Bool.eqb orb]. rewrite Hget. reflexivity.
Qed.

(** X26.  What the implicit role reads from the attributes differs
    between the dialects.  In JSX only an [href] or [type] written as a
    bare literal counts: with the attribute in braces or without a value
    an anchor or an input has no implicit role, and its role is never
    reported as redundant.  In a template a [type] that is missing, bound
    or without a value is read as [text]: the role textbox on such an
    input is reported. *)
Theorem implicit_role_reads_literal_attributes_only :
  (∀ (getElementRoleFromJSX : Jsx.JSXOpeningElement → option string)
     (String_ : JsValue → string) (node : Jsx.JSXOpeningElement)
     (tagName attrName : string) (attr : JSXAttr),
      getElementRoleFromJSX node = Some tagName →
      (tagName, attrName) ∈ [("a", "href"); ("input", "type")] →
      getJSXAttribute node attrName = Some attr →
      (∀ v, attr_value attr ≠ Some (ValLiteral v)) →
      NoRedundantRoles.JSXOpeningElement getElementRoleFromJSX String_ node
      = [])
  ∧ (∀ (node : Vue.VElement) (roleAttr : VAttr) (s : string),
      toLowerCase (Vue.name node) = "input" →
      getVueAttribute node "role" = Some roleAttr →
      vue_static_string roleAttr = Some s →
      toLowerCase s = "textbox" →
      getVueAttribute node "type" ≫= vue_static_string = None →
      NoRedundantRoles.VElement node
      = [NoRedundantRoles.redundantRole roleAttr "textbox" "input"]).
Proof.
  split.
  - intros getElementRoleFromJSX String_ node tagName attrName attr
           Htag Hin Hattr Hvalue.
    unfold NoRedundantRoles.JSXOpeningElement. rewrite Htag.
    destruct (negb (truthy (JsString tagName))); [reflexivity|].
    destruct (getJSXAttribute node "role") as [roleAttr|]; [|reflexivity].
    destruct (NoRedundantRoles.jsx_explicitRole roleAttr) as [role|];
      [|reflexivity].
    destruct (negb (truthy (JsString role))); [reflexivity|].
    rewrite (getImplicitRole_no_literal tagName attrName); [reflexivity|done|].
    unfold NoRedundantRoles.jsx_getAttr. rewrite Hattr.
    destruct (attr_value attr) as [[v| | | |]|]; try reflexivity.
    by destruct (Hvalue v).
  - intros node roleAttr s Htag Hattr Hstatic Hrole Htype.
    unfold NoRedundantRoles.VElement. rewrite Hattr, Htag.
    destruct roleAttr as [k [v|]|]; try discriminate Hstatic.
    injection Hstatic as ->.
    cbn [attr_value_value mbind option_bind attr_value Vue.VAttr_AttrLike fmap
         option_fmap option_map value_value].
    rewrite Hrole.
    unfold NoRedundantRoles.getImplicitRole, NoRedundantRoles.vue_getAttr.
    cbn [String.eqb Ascii.eqb Bool.eqb orb].
    destruct (getVueAttribute node "type") as [[k' [t|]|d arg [e|]]|];
      try discriminate Htype; reflexivity.
Qed.

Lemma implicit_role_reads_literal_attributes_only_witness :
  let textbox := attribute "role" (str "textbox") in
  let kind := Identifier "kind" in
  NoRedundantRoles.JSXOpeningElement
    (λ _, Some "input") (λ _, "")
    (Jsx.element "input" [attribute "type" (braces kind); textbox]) = []
  ∧ NoRedundantRoles.VElement
      (Vue.element "input"
         [VDirective "bind" (Some (ArgIdentifier "type")) (Some kind);
          VAttribute "role" (Some "textbox")])
    = [NoRedundantRoles.redundantRole (VAttribute "role" (Some "textbox"))
         "textbox" "input"].
Proof.
  intros textbox kind.
  destruct implicit_role_reads_literal_attributes_only as [Hjsx Hvue].
  split.
  - apply (Hjsx (λ _, Some "input") (λ _, "") (Jsx.element "input" _)
             "input" "type" (attribute "type" (braces kind)));
      first [ decide_closed | reflexivity | discriminate ].
  - apply (Hvue (Vue.element "input" _) (VAttribute "role" (Some "textbox"))
             "textbox"); reflexivity.
Defined.

End ImplicitRoleFacts.
